(** * Chess rating tracker: a shallow embedding of [update_rating.py]

    The script is a linear batch job: fetch one rating over HTTP, merge it
    into a 30-day history kept in [rating_history.json], draw the history as
    [rating_trend.svg] and regenerate [README.md].

    Python values are embedded as follows.
    - [str] is [string]; [<], [<=] on [str] is the lexicographic order on
      code points, which on UTF-8 bytes is [String.compare].
    - [int] is [Z]; [//] is [Z.div] (both round towards minus infinity).
    - a history entry (a dict with the keys ['date'], ['rating'],
      ['updated']) is the record [entry]; a history is a [list entry].
    - [datetime.now()] is a reading of the process clock; a function that
      calls it several times receives one reading per call.
    - files, standard output and raised exceptions are threaded through a
      small state-and-error monad ([Script.M]).
    - a division [//] whose divisor is computed is checked: a zero divisor
      is the [ZeroDivisionError].
    - what the Python library answers outside the ground the embedding
      covers (what [strptime] makes of non-ASCII text) is a parameter. *)

From Stdlib Require Import ZArith List String Ascii Bool Lia Sorted Permutation.
From Stdlib Require Import DecimalString.
Import ListNotations.

Local Open Scope Z_scope.

(* ================================================================== *)
(** * Python strings: ordering and formatting helpers *)
(* ================================================================== *)

Module PyStr.

(** [a <= b] on Python strings. *)
Definition le (a b : string) : Prop := String.leb a b = true.

(** [str(n)] for an [int]. *)
Definition str (n : Z) : string := NilZero.string_of_int (Z.to_int n).

(** The decimal digit [n] (0..9) as a character. *)
Definition digit_char (n : Z) : ascii := ascii_of_nat (48 + Z.to_nat n).

(** The [k] low decimal digits of [n], most significant first, in front of
    [acc]: the zero-padded field of width [k] that [strftime] and
    [isoformat] print for a number below [10^k]. *)
Fixpoint digits (k : nat) (n : Z) (acc : string) : string :=
  match k with
  | O => acc
  | S k' => digits k' (n / 10) (String (digit_char (n mod 10)) acc)
  end.

Definition zfill (k : nat) (n : Z) : string := digits k n EmptyString.

(** [s in t] for two strings: [s] occurs in [t]. *)
Fixpoint occurs (s t : string) : bool :=
  String.prefix s t ||
  match t with
  | EmptyString => false
  | String _ t' => occurs s t'
  end.

(** The double-quote character, and a quoted attribute value. *)
Definition dq : string := String (ascii_of_nat 34) EmptyString.
Definition quoted (s : string) : string := (dq ++ s ++ dq)%string.

(** A line feed. *)
Definition nl : string := String (ascii_of_nat 10) EmptyString.

(** [s] occurs in [t], as a proposition. *)
Definition contains (s t : string) : Prop :=
  exists before after : string, t = (before ++ s ++ after)%string.

(** [sep.join(l)] *)
Definition join (sep : string) (l : list string) : string := String.concat sep l.

End PyStr.

(* ================================================================== *)
(** * The clock: [datetime], [timedelta(days=n)], [strftime], [strptime] *)
(* ================================================================== *)

Module Clock.

(** A naive [datetime] value. *)
Record datetime : Type := mkDatetime {
  year : Z; month : Z; day : Z;
  hour : Z; minute : Z; second : Z; microsecond : Z
}.

Definition is_leap (y : Z) : bool :=
  (y mod 4 =? 0) && (negb (y mod 100 =? 0) || (y mod 400 =? 0)).

Definition days_in_month (y m : Z) : Z :=
  if m =? 2 then (if is_leap y then 29 else 28)
  else if (m =? 4) || (m =? 6) || (m =? 9) || (m =? 11) then 30
  else 31.

(** The invariant of Python's [datetime] class on the date fields. *)
Definition valid_date (y m d : Z) : Prop :=
  1 <= y <= 9999 /\ 1 <= m <= 12 /\ 1 <= d <= days_in_month y m.

Definition valid_dateb (y m d : Z) : bool :=
  (1 <=? y) && (y <=? 9999) && (1 <=? m) && (m <=? 12) &&
  (1 <=? d) && (d <=? days_in_month y m).

Definition valid (t : datetime) : Prop := valid_date (year t) (month t) (day t).

(** [t - timedelta(days=1)]: the same time of day on the previous calendar
    day. *)
Definition prev_day (t : datetime) : datetime :=
  if 1 <? day t then
    mkDatetime (year t) (month t) (day t - 1)
               (hour t) (minute t) (second t) (microsecond t)
  else if 1 <? month t then
    mkDatetime (year t) (month t - 1) (days_in_month (year t) (month t - 1))
               (hour t) (minute t) (second t) (microsecond t)
  else
    mkDatetime (year t - 1) 12 31
               (hour t) (minute t) (second t) (microsecond t).

(** [t - timedelta(days=n)].  Python computes it on day ordinals; stepping
    back one calendar day [n] times gives the same date.  (Python raises
    [OverflowError] when the result would precede 0001-01-01; the clock
    never reads that early, and the results below that depend on the date
    arithmetic assume a year of at least 1000.) *)
Definition minus_days (t : datetime) (n : nat) : datetime := Nat.iter n prev_day t.

(** What [%Y] prints.  From the year 1000 on it is the four digits of the
    year.  Below, the platform decides; followed here is glibc, which
    prints the year as it is, without padding.  The theorems about dates
    assume a year of four digits, so they do not depend on that choice. *)
Definition year_field (y : Z) : string :=
  if y <? 1000 then PyStr.str y else PyStr.zfill 4 y.

(** [t.strftime('%Y-%m-%d')] *)
Definition strftime_ymd (t : datetime) : string :=
  (year_field (year t) ++ "-" ++ PyStr.zfill 2 (month t) ++ "-" ++
   PyStr.zfill 2 (day t))%string.

(** [t.strftime('%Y-%m-%d %H:%M')] *)
Definition strftime_ymd_hm (t : datetime) : string :=
  (strftime_ymd t ++ " " ++ PyStr.zfill 2 (hour t) ++ ":" ++
   PyStr.zfill 2 (minute t))%string.

(** [t.isoformat()], which pads the year itself. *)
Definition isoformat (t : datetime) : string :=
  (PyStr.zfill 4 (year t) ++ "-" ++ PyStr.zfill 2 (month t) ++ "-" ++
   PyStr.zfill 2 (day t) ++ "T" ++ PyStr.zfill 2 (hour t) ++ ":" ++
   PyStr.zfill 2 (minute t) ++ ":" ++ PyStr.zfill 2 (second t) ++
   (if (microsecond t =? 0)%Z then EmptyString
    else "." ++ PyStr.zfill 6 (microsecond t)))%string.

(** The readings whose date [strftime] prints in full: a calendar day in a
    year of four digits. *)
Definition canonical (t : datetime) : Prop := valid t /\ 1000 <= year t.

(** The value of a decimal digit character, [None] for any other
    character. *)
Definition digit_val (c : ascii) : option Z :=
  let n := Z.of_nat (nat_of_ascii c) in
  if (48 <=? n) && (n <=? 57) then Some (n - 48) else None.

(** The month field of ['%Y-%m-%d'] and the ['-'] after it: the regular
    expression [1[0-2]|0[1-9]|[1-9]] followed by a hyphen.  Returns the
    month and the rest of the string. *)
Definition parse_month (s : string) : option (Z * string) :=
  match s with
  | String c1 (String c2 rest) =>
      match digit_val c1, digit_val c2, rest with
      | Some 1, Some b, String c3 rest' =>
          if (b <=? 2) && Ascii.eqb c3 "-" then Some (10 + b, rest') else None
      | Some 0, Some b, String c3 rest' =>
          if (1 <=? b) && Ascii.eqb c3 "-" then Some (b, rest') else None
      | Some a, None, _ =>
          if (1 <=? a) && Ascii.eqb c2 "-" then Some (a, rest) else None
      | _, _, _ => None
      end
  | _ => None
  end.

(** The day field of ['%Y-%m-%d'], which must end the string: the regular
    expression [3[0-1]|[1-2]\d|0[1-9]|[1-9]| [1-9]] with nothing left
    over. *)
Definition parse_day (s : string) : option Z :=
  match s with
  | String c1 EmptyString =>
      match digit_val c1 with
      | Some a => if 1 <=? a then Some a else None
      | None => None
      end
  | String c1 (String c2 EmptyString) =>
      match digit_val c1, digit_val c2 with
      | Some a, Some b =>
          if a =? 3 then (if b <=? 1 then Some (30 + b) else None)
          else if (1 <=? a) && (a <=? 2) then Some (10 * a + b)
          else if (a =? 0) && (1 <=? b) then Some b
          else None
      | None, Some b =>
          if Ascii.eqb c1 " " && (1 <=? b) then Some b else None
      | _, _ => None
      end
  | _ => None
  end.

(** [datetime.strptime(s, '%Y-%m-%d')] for a string [s] of ASCII
    characters; [None] stands for the [ValueError] Python raises when [s]
    does not match the format or names no calendar day. *)
Definition strptime_ymd (s : string) : option datetime :=
  match s with
  | String y1 (String y2 (String y3 (String y4 (String h rest)))) =>
      match digit_val y1, digit_val y2, digit_val y3, digit_val y4 with
      | Some a, Some b, Some c, Some d =>
          if Ascii.eqb h "-" then
            match parse_month rest with
            | Some (m, rest') =>
                match parse_day rest' with
                | Some dd =>
                    let y := 1000 * a + 100 * b + 10 * c + d in
                    if valid_dateb y m dd
                    then Some (mkDatetime y m dd 0 0 0 0)
                    else None
                | None => None
                end
            | None => None
            end
          else None
      | _, _, _, _ => None
      end
  | _ => None
  end.

(** Whether [s] holds ASCII characters only. *)
Fixpoint is_ascii (s : string) : bool :=
  match s with
  | EmptyString => true
  | String c rest => (nat_of_ascii c <? 128)%nat && is_ascii rest
  end.

(** [datetime.strptime(s, '%Y-%m-%d')] for any string.  Python's [\d] also
    matches the decimal digits of other scripts, which it takes from the
    Unicode tables of the interpreter at hand; [elsewhere] stands for what
    the library answers on a string that holds a non-ASCII character. *)
Definition strptime (elsewhere : string -> option datetime) (s : string)
  : option datetime :=
  if is_ascii s then strptime_ymd s else elsewhere s.

(** Chronological order on the calendar dates of two readings. *)
Definition date_leb (a b : datetime) : bool :=
  (year a <? year b) ||
  ((year a =? year b) &&
   ((month a <? month b) || ((month a =? month b) && (day a <=? day b)))).

End Clock.

(* ================================================================== *)
(** * The history: entries, upsert, sort, prune, cap *)
(* ================================================================== *)

Module History.
Import Clock.

(** One element of the JSON array in [rating_history.json]. *)
Record entry : Type := mkEntry {
  date : string;
  rating : Z;
  updated : string
}.

(** The [for entry in history: ... break] loop of [add_today_rating]: the
    first entry dated [today] gets the new rating and time stamp.  [None]
    means that the loop ended without [break]. *)
Fixpoint update_today (today : string) (r : Z) (stamp : string)
    (history : list entry) : option (list entry) :=
  match history with
  | [] => None
  | e :: rest =>
      if (date e =? today)%string
      then Some (mkEntry (date e) r stamp :: rest)
      else option_map (cons e) (update_today today r stamp rest)
  end.

(** The loop together with its [else] clause, which appends a new entry. *)
Definition upsert (today : string) (r : Z) (stamp : string)
    (history : list entry) : list entry :=
  match update_today today r stamp history with
  | Some history' => history'
  | None => history ++ [mkEntry today r stamp]
  end.

(** [history.sort(key=lambda x: x['date'])].  Python's sort is stable, so
    its result is determined by the input; stable insertion sort computes
    it. *)
Fixpoint insert_by_date (e : entry) (sorted : list entry) : list entry :=
  match sorted with
  | [] => [e]
  | y :: rest =>
      if String.leb (date e) (date y) then e :: sorted
      else y :: insert_by_date e rest
  end.

Definition sort_by_date (history : list entry) : list entry :=
  fold_right insert_by_date [] history.

(** [[entry for entry in history if entry['date'] >= cutoff_str]] *)
Definition prune (cutoff_str : string) (history : list entry) : list entry :=
  filter (fun e => String.leb cutoff_str (date e)) history.

(** [l[-n:]] for [0 < n]. *)
Definition last_n {A : Type} (n : nat) (l : list A) : list A :=
  skipn (List.length l - n) l.

(** [if len(history) > 30: history = history[-30:]] *)
Definition cap (history : list entry) : list entry :=
  if (30 <? List.length history)%nat then last_n 30 history else history.

(** The cut-off string of a clock reading:
    [(now - timedelta(days=30)).strftime('%Y-%m-%d')]. *)
Definition cutoff_of (now : datetime) : string :=
  strftime_ymd (minus_days now 30).

(** [add_today_rating(history, rating)].  [now_today], [now_stamp] and
    [now_cutoff] are the readings of the three [datetime.now()] calls, in
    the order in which the function makes them.  The value is the list the
    function returns. *)
Definition add_today_rating (now_today now_stamp now_cutoff : datetime)
    (history : list entry) (rating : option Z) : list entry :=
  match rating with
  | None => history
  | Some r =>
      let today := strftime_ymd now_today in
      let history := upsert today r (isoformat now_stamp) history in
      let history := sort_by_date history in
      let cutoff_str := cutoff_of now_cutoff in
      let history := prune cutoff_str history in
      cap history
  end.

(** A history in nondecreasing order of its date strings. *)
Definition sorted (history : list entry) : Prop :=
  StronglySorted (fun a b => PyStr.le (date a) (date b)) history.


(** [e] is dated [d] in the form in which the script writes dates: the
    ['%Y-%m-%d'] rendering of a calendar day in a year of four digits. *)
Definition written_as (d : datetime) (e : entry) : Prop :=
  canonical d /\ date e = strftime_ymd d.

Definition written (e : entry) : Prop := exists d, written_as d e.

(** Days in nondecreasing order of the calendar. *)
Definition chronological (days : list datetime) : Prop :=
  StronglySorted (fun a b => date_leb a b = true) days.

(** Two clock readings of one call are compatible when both are valid
    dates of a four-digit year and the cut-off of the second, 30 days
    back, is a four-digit year not later than the date of the first. *)
Definition clock_sane (t_today t_cutoff : datetime) : Prop :=
  canonical t_today /\ valid t_cutoff /\ 1001 <= year t_cutoff /\
  date_leb (minus_days t_cutoff 30) t_today = true.

End History.

(* ================================================================== *)
(** * The chart: coordinates and the SVG text *)
(* ================================================================== *)

Module Chart.

Definition CHESS_USERNAME : string := "AnishTheAnnihilator".

Definition width : Z := 1000.
Definition height : Z := 500.
Definition margin : Z := 60.

(** [min(l)] and [max(l)] of a list of integers.  (On the empty list Python
    raises; the chart code only reaches them with a non-empty list.) *)
Definition py_min (l : list Z) : Z :=
  match l with
  | [] => 0
  | x :: rest => fold_left Z.min rest x
  end.

Definition py_max (l : list Z) : Z :=
  match l with
  | [] => 0
  | x :: rest => fold_left Z.max rest x
  end.

Definition min_rating (ratings : list Z) : Z := py_min ratings - 50.
Definition max_rating (ratings : list Z) : Z := py_max ratings + 50.
Definition rating_range (ratings : list Z) : Z :=
  max_rating ratings - min_rating ratings.

(** The divisor of the x-coordinates: [len(dates) - 1].  ([dates] and
    [ratings] both have one element per history entry.) *)
Definition x_divisor (ratings : list Z) : Z := Z.of_nat (List.length ratings) - 1.

(** [margin + (i * (width - 2*margin) // (len(dates) - 1))] *)
Definition point_x (ratings : list Z) (i : nat) : Z :=
  margin + (Z.of_nat i * (width - 2 * margin)) / x_divisor ratings.

(** [margin + ((max_rating - rating) * (height - 2*margin) // rating_range)] *)
Definition point_y (ratings : list Z) (r : Z) : Z :=
  margin + ((max_rating ratings - r) * (height - 2 * margin)) / rating_range ratings.

(** The [(x, y)] pairs of the loop over [enumerate(zip(dates, ratings))]. *)
Definition points (ratings : list Z) : list (Z * Z) :=
  map (fun ir : nat * Z => (point_x ratings (fst ir), point_y ratings (snd ir)))
      (combine (seq 0 (List.length ratings)) ratings).

Definition xs (ratings : list Z) : list Z := map fst (points ratings).
Definition ys (ratings : list Z) : list Z := map snd (points ratings).

Local Open Scope string_scope.

(** [name="value"] pairs separated by single spaces. *)
Definition attrs (l : list (string * string)) : string :=
  PyStr.join " " (map (fun kv => fst kv ++ "=" ++ PyStr.quoted (snd kv)) l).

Definition svg_header (n : nat) : string :=
  "<svg " ++ attrs [("width", PyStr.str width); ("height", PyStr.str height);
                    ("xmlns", "http://www.w3.org/2000/svg")] ++ ">" ++ PyStr.nl ++
  "  <rect " ++ attrs [("width", PyStr.str width); ("height", PyStr.str height);
                       ("fill", "#1e1e1e")] ++ "/>" ++ PyStr.nl ++
  "  <text " ++ attrs [("x", PyStr.str (width / 2)); ("y", "30");
                       ("text-anchor", "middle"); ("fill", "white");
                       ("font-family", "Arial"); ("font-size", "18");
                       ("font-weight", "bold")] ++ ">" ++ PyStr.nl ++
  "    Chess.com Rapid Rating - " ++ CHESS_USERNAME ++ PyStr.nl ++
  "  </text>" ++ PyStr.nl ++
  "  <text " ++ attrs [("x", PyStr.str (width / 2)); ("y", "55");
                       ("text-anchor", "middle"); ("fill", "#888");
                       ("font-family", "Arial"); ("font-size", "12")] ++ ">" ++ PyStr.nl ++
  "    Last 30 Days (" ++ PyStr.str (Z.of_nat n) ++ " days tracked)" ++ PyStr.nl ++
  "  </text>" ++ PyStr.nl.

(** A grid line at height [y] and its label [rating_val]. *)
Definition grid_line_text (y rating_val : Z) : string :=
  "  <line " ++ attrs [("x1", PyStr.str margin); ("y1", PyStr.str y);
                       ("x2", PyStr.str (width - margin)); ("y2", PyStr.str y);
                       ("stroke", "#333"); ("stroke-width", "1")] ++ "/>" ++ PyStr.nl ++
  "  <text " ++ attrs [("x", PyStr.str (margin - 10)); ("y", PyStr.str (y + 5));
                       ("text-anchor", "end"); ("fill", "#888");
                       ("font-family", "Arial"); ("font-size", "12")] ++ ">" ++
  PyStr.str rating_val ++ "</text>" ++ PyStr.nl.

(** One pass of the [for i in range(6)] loop. *)
Definition grid_line (ratings : list Z) (i : Z) : string :=
  let y := (margin + (i * (height - 2 * margin)) / 5)%Z in
  let rating_val := (max_rating ratings - (i * rating_range ratings) / 5)%Z in
  grid_line_text y rating_val.

Definition grid (ratings : list Z) : string :=
  String.concat EmptyString (map (grid_line ratings) [0; 1; 2; 3; 4; 5]%Z).

(** [f"{x},{y}"] *)
Definition point_text (p : Z * Z) : string :=
  PyStr.str (fst p) ++ "," ++ PyStr.str (snd p).

Definition circle (p : Z * Z) : string :=
  "  <circle " ++ attrs [("cx", PyStr.str (fst p)); ("cy", PyStr.str (snd p));
                         ("r", "4"); ("fill", "#00ff88")] ++ "/>" ++ PyStr.nl.

(** The area, the line and the dots drawn through the points [coords]. *)
Definition curve_text (coords : list (Z * Z)) : string :=
    let pts := map point_text coords in
    let area_points :=
      PyStr.str margin ++ "," ++ PyStr.str (height - margin) ++ " " ++
      PyStr.join " " pts ++
      " " ++ PyStr.str (width - margin) ++ "," ++ PyStr.str (height - margin) in
    "  <polygon " ++ attrs [("points", area_points); ("fill", "#00ff88");
                            ("fill-opacity", "0.2")] ++ "/>" ++ PyStr.nl ++
    "  <polyline " ++ attrs [("points", PyStr.join " " pts); ("fill", "none");
                             ("stroke", "#00ff88"); ("stroke-width", "3")] ++
    "/>" ++ PyStr.nl ++
    String.concat EmptyString (map circle coords).

(** The single dot at [(x, y)] with the rating [r] above it. *)
Definition dot_text (x y r : Z) : string :=
    "  <circle " ++ attrs [("cx", PyStr.str x); ("cy", PyStr.str y);
                           ("r", "6"); ("fill", "#00ff88")] ++ "/>" ++ PyStr.nl ++
    "  <text " ++ attrs [("x", PyStr.str x); ("y", PyStr.str (y - 15));
                         ("text-anchor", "middle"); ("fill", "#00ff88");
                         ("font-family", "Arial"); ("font-size", "14");
                         ("font-weight", "bold")] ++ ">" ++
    PyStr.str r ++ "</text>" ++ PyStr.nl.

(** The body of the chart: the [if len(ratings) > 1: ... else: ...] that
    draws the curve, or a single dot. *)
Definition curve (ratings : list Z) : string :=
  if (1 <? List.length ratings)%nat then curve_text (points ratings)
  else dot_text (width / 2)%Z (point_y ratings (hd 0%Z ratings)) (hd 0%Z ratings).

Definition stat_text (y : Z) (fill size : string) (bold : bool) (body : string)
  : string :=
  "  <text " ++
  attrs ([("x", PyStr.str (width - 10)); ("y", PyStr.str y);
          ("text-anchor", "end"); ("fill", fill);
          ("font-family", "Arial"); ("font-size", size)] ++
         (if bold then [("font-weight", "bold")] else []))%list ++
  ">" ++ body ++ "</text>" ++ PyStr.nl.

(** The statistics in the lower right corner. *)
Definition stats (ratings : list Z) : string :=
  let current_rating := last ratings 0%Z in
  if (1 <? List.length ratings)%nat then
    let highest := py_max ratings in
    let lowest := py_min ratings in
    let change := (current_rating - hd 0 ratings)%Z in
    let change_text :=
      if (0 <=? change)%Z then "+" ++ PyStr.str change else PyStr.str change in
    let change_color := if (0 <=? change)%Z then "#00ff88" else "#ff4444" in
    stat_text (height - 80) "#00ff88" "16" true ("Current: " ++ PyStr.str current_rating) ++
    stat_text (height - 60) "#888" "12" false ("High: " ++ PyStr.str highest) ++
    stat_text (height - 45) "#888" "12" false ("Low: " ++ PyStr.str lowest) ++
    stat_text (height - 25) change_color "12" true ("Change: " ++ change_text)
  else
    stat_text (height - 25) "#00ff88" "16" true ("Current: " ++ PyStr.str current_rating).

(** The text of the chart for a non-empty list of ratings. *)
Definition svg_content (ratings : list Z) : string :=
  svg_header (List.length ratings) ++ grid ratings ++ curve ratings ++
  stats ratings ++ "</svg>".

(** ** The divisions, checked

    [point_x], [point_y] and the texts above divide with [Z.div], which is
    total.  Python's [//] raises [ZeroDivisionError] on a zero divisor.
    The function has two divisors that it computes, [len(dates) - 1] and
    [rating_range]; the definitions below follow it with these two
    divisions checked.  (Its other divisions are by the literals 2 and
    5.) *)

(** [a // b]; [None] is the [ZeroDivisionError]. *)
Definition floordiv (a b : Z) : option Z :=
  if (b =? 0)%Z then None else Some (a / b)%Z.

(** One pass of the loop over [enumerate(zip(dates, ratings))]: [x], then
    [y]. *)
Definition checked_point (ratings : list Z) (ir : nat * Z) : option (Z * Z) :=
  match floordiv (Z.of_nat (fst ir) * (width - 2 * margin)) (x_divisor ratings) with
  | Some qx =>
      match floordiv ((max_rating ratings - snd ir) * (height - 2 * margin))
                     (rating_range ratings) with
      | Some qy => Some (margin + qx, margin + qy)%Z
      | None => None
      end
  | None => None
  end.

(** The loop: it stops at the first pass that raises. *)
Fixpoint checked_passes (ratings : list Z) (todo : list (nat * Z))
  : option (list (Z * Z)) :=
  match todo with
  | [] => Some []
  | ir :: rest =>
      match checked_point ratings ir with
      | Some p => option_map (cons p) (checked_passes ratings rest)
      | None => None
      end
  end.

Definition checked_points (ratings : list Z) : option (list (Z * Z)) :=
  checked_passes ratings (combine (seq 0 (List.length ratings)) ratings).

(** The body of the chart, as the code computes it. *)
Definition checked_curve (ratings : list Z) : option string :=
  if (1 <? List.length ratings)%nat then
    option_map curve_text (checked_points ratings)
  else
    match floordiv ((max_rating ratings - hd 0%Z ratings) * (height - 2 * margin))
                   (rating_range ratings) with
    | Some qy => Some (dot_text (width / 2)%Z (margin + qy)%Z (hd 0%Z ratings))
    | None => None
    end.

(** The text that [create_svg_graph] builds, or [None] when one of its
    divisions raises. *)
Definition render (ratings : list Z) : option string :=
  option_map
    (fun body => svg_header (List.length ratings) ++ grid ratings ++ body ++
                 stats ratings ++ "</svg>")
    (checked_curve ratings).

End Chart.

(* ================================================================== *)
(** * The status document *)
(* ================================================================== *)

Module Report.
Local Open Scope string_scope.

Definition GRAPH_FILE : string := "rating_trend.svg".

(** The f-string of [update_readme]: [current] is the latest rating,
    [days_tracked] the number of entries and [stamp] the clock reading
    rendered with ['%Y-%m-%d %H:%M']. *)
Definition readme_content (current : Z) (days_tracked : nat) (stamp : string)
  : string :=
  "# Chess Rating Tracker" ++ PyStr.nl ++
  PyStr.nl ++
  "## Rapid Rating: " ++ PyStr.str current ++ PyStr.nl ++
  PyStr.nl ++
  "![Rating Trend](" ++ GRAPH_FILE ++ ")" ++ PyStr.nl ++
  PyStr.nl ++
  "**Days Tracked:** " ++ PyStr.str (Z.of_nat days_tracked) ++ "  " ++ PyStr.nl ++
  "**Last Updated:** " ++ stamp ++ PyStr.nl ++
  PyStr.nl ++
  "*This graph shows only real rating data. Run daily to build up your historical trend!*" ++
  PyStr.nl.

End Report.

(* ================================================================== *)
(** * Decoded JSON, as far as the fetcher looks into it *)
(* ================================================================== *)

Module Json.
Local Open Scope string_scope.

(** A decoded JSON document.  An object is the [dict] that [json.loads]
    builds, listed as key/value pairs with distinct keys. *)
#[warnings="-register-all"]
Inductive json : Type :=
| JNull
| JBool (b : bool)
| JNum (n : Z)
| JStr (s : string)
| JArr (items : list json)
| JObj (fields : list (string * json)).

(** The exceptions that looking into the decoded body can raise; the
    fetcher catches and prints them. *)
Inductive exn : Type :=
| KeyError (key : string)
| TypeError (text : string).

(** [str(e)] *)
Definition exn_text (e : exn) : string :=
  match e with
  | KeyError key => "'" ++ key ++ "'"
  | TypeError text => text
  end.

Definition type_name (v : json) : string :=
  match v with
  | JNull => "NoneType"
  | JBool _ => "bool"
  | JNum _ => "int"
  | JStr _ => "str"
  | JArr _ => "list"
  | JObj _ => "dict"
  end.

Fixpoint lookup (key : string) (fields : list (string * json)) : option json :=
  match fields with
  | [] => None
  | (k, v) :: rest => if k =? key then Some v else lookup key rest
  end.

(** [key in v] for a string [key]. *)
Definition py_in (key : string) (v : json) : exn + bool :=
  match v with
  | JObj fields =>
      inr (match lookup key fields with Some _ => true | None => false end)
  | JArr items =>
      inr (existsb (fun x => match x with JStr s => s =? key | _ => false end) items)
  | JStr s => inr (PyStr.occurs key s)
  | _ => inl (TypeError ("argument of type '" ++ type_name v ++ "' is not iterable"))
  end.

(** [v[key]] for a string [key]. *)
Definition py_getitem (v : json) (key : string) : exn + json :=
  match v with
  | JObj fields =>
      match lookup key fields with
      | Some x => inr x
      | None => inl (KeyError key)
      end
  | JArr _ => inl (TypeError "list indices must be integers or slices, not str")
  | JStr _ => inl (TypeError "string indices must be integers, not 'str'")
  | _ => inl (TypeError ("'" ++ type_name v ++ "' object is not subscriptable"))
  end.

(** What the HTTP request and the decoding of its body come to. *)
Inductive http_outcome : Type :=
| NetFailure (text : string)   (* an exception, with its text *)
| NetData (data : json).       (* the decoded body *)

Definition try_bind {A B : Type} (c : exn + A) (k : A -> exn + B) : exn + B :=
  match c with
  | inl e => inl e
  | inr a => k a
  end.

(** The body of the [with] block of [fetch_current_rating] once [data] is
    decoded: [inr (Some v)] is [return v], [inr None] is falling out of the
    [if], [inl e] is an exception raised on the way. *)
Definition extract_rating (data : json) : exn + option json :=
  try_bind (py_in "chess_rapid" data) (fun has_rapid =>
  if has_rapid then
    try_bind (py_getitem data "chess_rapid") (fun rapid =>
    try_bind (py_in "last" rapid) (fun has_last =>
    if has_last then
      try_bind (py_getitem data "chess_rapid") (fun rapid' =>
      try_bind (py_getitem rapid' "last") (fun last =>
      try_bind (py_getitem last "rating") (fun r =>
      inr (Some r))))
    else inr None))
  else inr None).

End Json.

(* ================================================================== *)
(** * The script: files, output, clock and the four stages *)
(* ================================================================== *)

Module Script.
Import Clock History Json.
Local Open Scope string_scope.

(** Everything outside the process that the script reads or writes.  The
    history file, when present, holds a JSON array of entries and is
    represented by the decoded array. *)
Record world : Type := mkWorld {
  history_file : option (list entry);   (* rating_history.json *)
  graph_file : option string;           (* rating_trend.svg *)
  readme_file : option string;          (* README.md *)
  stdout : list string;                 (* the lines printed so far *)
  network : http_outcome;               (* the answer of the rating API *)
  clock : nat -> datetime;              (* the n-th reading of [datetime.now()] *)
  ticks : nat                           (* how many readings were taken *)
}.

(** The exceptions that nothing catches: they end the run. *)
Inductive uncaught : Type :=
| ValueError (data : string)    (* [strptime] rejected the string [data] *)
| ZeroDivisionError             (* a [//] met a zero divisor *)
| OutsideModel (what : string). (* a Python value the embedding has no type for *)

(** A computation either raises or returns, and leaves a new world. *)
Definition M (A : Type) : Type := world -> (uncaught + A) * world.

Definition ret {A : Type} (a : A) : M A := fun w => (inr a, w).

Definition bind {A B : Type} (c : M A) (k : A -> M B) : M B :=
  fun w =>
    match c w with
    | (inl e, w') => (inl e, w')
    | (inr a, w') => k a w'
    end.

Definition raise {A : Type} (e : uncaught) : M A := fun w => (inl e, w).

Notation "x <- c ;; k" := (bind c (fun x => k))
  (at level 61, c at next level, right associativity).
Notation "c ;;; k" := (bind c (fun _ => k))
  (at level 61, right associativity).

(** [print(line)] *)
Definition print (line : string) : M unit := fun w =>
  (inr tt, mkWorld (history_file w) (graph_file w) (readme_file w)
                   (stdout w ++ [line])%list (network w) (clock w) (ticks w)).

(** [datetime.now()] *)
Definition now : M datetime := fun w =>
  (inr (clock w (ticks w)),
   mkWorld (history_file w) (graph_file w) (readme_file w)
           (stdout w) (network w) (clock w) (S (ticks w))).

Definition write_history (h : list entry) : M unit := fun w =>
  (inr tt, mkWorld (Some h) (graph_file w) (readme_file w)
                   (stdout w) (network w) (clock w) (ticks w)).

Definition write_graph (text : string) : M unit := fun w =>
  (inr tt, mkWorld (history_file w) (Some text) (readme_file w)
                   (stdout w) (network w) (clock w) (ticks w)).

Definition write_readme (text : string) : M unit := fun w =>
  (inr tt, mkWorld (history_file w) (graph_file w) (Some text)
                   (stdout w) (network w) (clock w) (ticks w)).

(** [os.path.exists(HISTORY_FILE)] *)
Definition history_exists : M bool := fun w =>
  (inr (match history_file w with Some _ => true | None => false end), w).

Definition read_network : M http_outcome := fun w => (inr (network w), w).

(** The three files, which is all of the stored state. *)
Definition files (w : world)
  : option (list entry) * option string * option string :=
  (history_file w, graph_file w, readme_file w).

(** The history on disk; an absent file counts as the empty history. *)
Definition stored_history (w : world) : list entry :=
  match history_file w with
  | Some h => h
  | None => []
  end.

(** ** Stage 1: the fetcher *)

Definition fetch_current_rating : M (option json) :=
  outcome <- read_network ;;
  match outcome with
  | NetFailure text =>
      print ("Error fetching rating: " ++ text) ;;;
      ret None
  | NetData data =>
      match extract_rating data with
      | inl e =>
          print ("Error fetching rating: " ++ exn_text e) ;;;
          ret None
      | inr (Some JNull) => ret None
      | inr (Some v) => ret (Some v)
      | inr None => ret None
      end
  end.

(** ** Stage 2: the history store *)

Definition load_history : M (list entry) := fun w =>
  match history_file w with
  | Some h => (inr h, w)
  | None => (inr [], w)
  end.

Definition save_history (history : list entry) : M unit :=
  write_history history.

Definition cleanup_old_data : M (list entry) :=
  present <- history_exists ;;
  if (present : bool) then
    history <- load_history ;;
    t <- now ;;
    let cutoff_str := cutoff_of t in
    let cleaned_history := prune cutoff_str history in
    if negb (List.length cleaned_history =? List.length history)%nat then
      print ("Cleaned up " ++
             PyStr.str (Z.of_nat (List.length history - List.length cleaned_history)) ++
             " old entries") ;;;
      save_history cleaned_history ;;;
      ret cleaned_history
    else load_history
  else load_history.

(** [add_today_rating] with its clock readings taken from the world. *)
Definition add_today_rating_now (history : list entry) (rating : option Z)
  : M (list entry) :=
  match rating with
  | None => ret history
  | Some _ =>
      t_today <- now ;;
      t_stamp <- now ;;
      t_cutoff <- now ;;
      ret (add_today_rating t_today t_stamp t_cutoff history rating)
  end.

(** ** Stage 3: the chart renderer *)

Section Library.

(** What [datetime.strptime] answers on strings with non-ASCII
    characters (see [Clock.strptime]). *)
Variable elsewhere : string -> option datetime.

(** [date] can be read by [strptime]. *)
Definition parses (e : entry) : Prop := strptime elsewhere (date e) <> None.

(** [[datetime.strptime(entry['date'], '%Y-%m-%d') for entry in history]] *)
Fixpoint parse_dates (history : list entry) : M (list datetime) :=
  match history with
  | [] => ret []
  | e :: rest =>
      match strptime elsewhere (date e) with
      | Some d => ds <- parse_dates rest ;; ret (d :: ds)
      | None => raise (ValueError (date e))
      end
  end.

Definition create_svg_graph (history : list entry) : M bool :=
  if (List.length history <? 1)%nat then ret false
  else
    dates <- parse_dates history ;;
    let ratings := map rating history in
    match Chart.render ratings with
    | Some svg_content =>
        write_graph svg_content ;;;
        ret true
    | None => raise ZeroDivisionError
    end.

(** ** Stage 4: the report writer *)

Definition update_readme (rating : Z) (history : list entry) : M unit :=
  match history with
  | [] => ret tt
  | first :: rest =>
      let current := History.rating (last history first) in
      let days_tracked := List.length history in
      t <- now ;;
      write_readme (Report.readme_content current days_tracked (strftime_ymd_hm t))
  end.

(** ** The whole run *)

(** [f"{n:+d}"] *)
Definition str_signed (n : Z) : string :=
  if (0 <=? n)%Z then "+" ++ PyStr.str n else PyStr.str n.

Definition main : M unit :=
  print ("Fetching rating data for " ++ Chart.CHESS_USERNAME ++ "...") ;;;
  fetched <- fetch_current_rating ;;
  match fetched with
  | None => print "Could not fetch current rating"
  | Some (JNum current_rating) =>
      print ("Current rating: " ++ PyStr.str current_rating) ;;;
      history <- cleanup_old_data ;;
      print ("Existing data points: " ++ PyStr.str (Z.of_nat (List.length history))) ;;;
      history <- add_today_rating_now history (Some current_rating) ;;
      save_history history ;;;
      print ("Total data points: " ++ PyStr.str (Z.of_nat (List.length history))) ;;;
      drawn <- create_svg_graph history ;;
      if (drawn : bool) then
        update_readme current_rating history ;;;
        print ("Graph created with " ++ PyStr.str (Z.of_nat (List.length history)) ++
               " data points!") ;;;
        print ("Files updated: " ++ Report.GRAPH_FILE ++
               ", rating_history.json, README.md") ;;;
        if (1 <? List.length history)%nat then
          let highest := Chart.py_max (map rating history) in
          let lowest := Chart.py_min (map rating history) in
          let change := (current_rating - rating (hd (mkEntry EmptyString 0 EmptyString) history))%Z in
          print ("Stats: High " ++ PyStr.str highest ++ ", Low " ++ PyStr.str lowest ++
                 ", Change " ++ str_signed change)
        else
          print "Run this script daily to build up your rating history!"
      else
        print "Could not create graph"
  | Some _ =>
      (* The API's rating is an integer.  Another JSON value has no
         embedding as an entry's rating, so what the code goes on to do
         with it (print it, save an entry that holds it, fail in the chart
         arithmetic) is not represented: the run is cut off here, and no
         result below is about such a run. *)
      raise (OutsideModel "rating is not an integer")
  end.

End Library.

End Script.

(* ================================================================== *)
(** * Sample runs *)
(* ================================================================== *)

Module Samples.
Import Clock History Json Script.
Local Open Scope string_scope.

(** Noon of 1 March 2025; the cut-off 30 days earlier is 30 January. *)
Definition noon : datetime := mkDatetime 2025 3 1 12 0 0 0.

(** A clock that stands still at [noon]. *)
Definition steady_clock : nat -> datetime := fun _ => noon.

(** Two days of history. *)
Definition two_days : list entry :=
  [ mkEntry "2025-02-27" 1490 "2025-02-27T12:00:00";
    mkEntry "2025-02-28" 1500 "2025-02-28T12:00:00" ].


(** A history whose only entry carries a date that is no date. *)
Definition garbled : list entry := [ mkEntry "yesterday" 1500 "2025-02-28T12:00:00" ].

(** An entry for 5 January 2025 whose month and day were written with one
    digit, as an editor of the file may leave them; [strptime] reads such
    a date. *)
Definition one_digit : list entry := [ mkEntry "2025-1-5" 1480 "2025-01-05T12:00:00" ].

(** 5 and 10 February 2025, the first with one-digit fields. *)
Definition mixed_forms : list entry :=
  [ mkEntry "2025-2-5" 1480 "2025-02-05T12:00:00";
    mkEntry "2025-02-10" 1490 "2025-02-10T12:00:00" ].


(** A [strptime] that reads ASCII digits only: one of the answers the
    library can give on other strings. *)
Definition ascii_only : string -> option datetime := fun _ => None.

(** The API is unreachable; a history, a chart and a README exist. *)
Definition offline : world :=
  mkWorld (Some two_days) (Some "<svg/>") (Some "# Chess Rating Tracker")
          [] (NetFailure "<urlopen error timed out>") steady_clock 0.

(** The API answers with a rapid rating of 1510. *)
Definition payload : json :=
  JObj [("chess_rapid",
         JObj [("last", JObj [("rating", JNum 1510); ("date", JNum 1740830400)]);
               ("best", JObj [("rating", JNum 1550)])])].

Definition online : world :=
  mkWorld (Some two_days) None None [] (NetData payload) steady_clock 0.

End Samples.

(* ================================================================== *)
(** * Names for parts of the chart and of a run *)
(* ================================================================== *)

Module Parts.
Import Clock History Json Script.
Local Open Scope string_scope.



(** The entry that [add_today_rating] writes for today. *)
Definition fresh_entry (t_today t_stamp : datetime) (r : Z) : entry :=
  mkEntry (strftime_ymd t_today) r (isoformat t_stamp).

(** The index of the clock reading that [add_today_rating] takes first in
    a run of [main]: [cleanup_old_data] has read the clock once before it
    if, and only if, the history file exists. *)
Definition merge_tick (w : world) : nat :=
  match history_file w with
  | Some _ => S (ticks w)
  | None => ticks w
  end.

(** What [cleanup_old_data] returns in a run of [main] from [w]. *)
Definition cleaned_history (w : world) : list entry :=
  prune (cutoff_of (clock w (ticks w))) (stored_history w).

(** What [cleanup_old_data] prints: one line when it removed entries,
    nothing otherwise. *)
Definition cleanup_lines (w : world) : list string :=
  if (List.length (cleaned_history w) =? List.length (stored_history w))%nat
  then []
  else ["Cleaned up " ++
        PyStr.str (Z.of_nat (List.length (stored_history w)
                             - List.length (cleaned_history w))) ++
        " old entries"].

(** The last line of a successful run of [main]. *)
Definition closing_line (merged : list entry) (current_rating : Z) : string :=
  if (1 <? List.length merged)%nat then
    "Stats: High " ++ PyStr.str (Chart.py_max (map rating merged)) ++
    ", Low " ++ PyStr.str (Chart.py_min (map rating merged)) ++
    ", Change " ++
    str_signed (current_rating
                - rating (hd (mkEntry EmptyString 0 EmptyString) merged))
  else "Run this script daily to build up your rating history!".

(** What [add_today_rating] returns in a run of [main] from [w] once the
    rating [r] has been fetched. *)
Definition merged_history (w : world) (r : Z) : list entry :=
  add_today_rating (clock w (merge_tick w)) (clock w (S (merge_tick w)))
                   (clock w (S (S (merge_tick w))))
                   (cleaned_history w) (Some r).

End Parts.

(* ================================================================== *)
(** * More sample runs *)
(* ================================================================== *)

Module Scenarios.
Import Clock History Json Script Samples.
Local Open Scope string_scope.

(** The very first run: no file exists yet and the API answers. *)
Definition first_run : world :=
  mkWorld None None None [] (NetData payload) steady_clock 0.

(** The history on disk holds an entry whose date is no date; as a string
    it sorts after every cut-off, so pruning keeps it. *)
Definition corrupt : world :=
  mkWorld (Some garbled) (Some "<svg/>") (Some "# Chess Rating Tracker")
          [] (NetData payload) steady_clock 0.

(** The API answers, but the last rapid game carries no rating. *)
Definition payload_without_rating : json :=
  JObj [("chess_rapid", JObj [("last", JObj [("date", JNum 1740830400)])])].

Definition unrated : world :=
  mkWorld (Some two_days) None None [] (NetData payload_without_rating)
          steady_clock 0.

(** A history with an entry from before the cut-off of [noon]. *)
Definition stale : list entry :=
  mkEntry "2025-01-15" 1480 "2025-01-15T12:00:00" :: two_days.

Definition overdue : world :=
  mkWorld (Some stale) None None [] (NetData payload) steady_clock 0.

(** Thirty consecutive days, 30 January to 28 February 2025: a full
    window on the eve of [noon]. *)
Definition full_window : list entry :=
  Eval vm_compute in
    map (fun n => mkEntry (strftime_ymd (minus_days noon n)) 1500
                          "2025-02-28T12:00:00")
        (rev (seq 1 30)).

End Scenarios.

(* ================================================================== *)
(** * Facts about the string order and the zero-padded fields *)
(* ================================================================== *)

Module PyStrFacts.
Import PyStr.

Lemma ascii_compare_trans (a b c : ascii) :
  Ascii.compare a b <> Gt -> Ascii.compare b c <> Gt -> Ascii.compare a c <> Gt.
Proof.
  unfold Ascii.compare.
  destruct (N.compare_spec (N_of_ascii a) (N_of_ascii b));
  destruct (N.compare_spec (N_of_ascii b) (N_of_ascii c));
  destruct (N.compare_spec (N_of_ascii a) (N_of_ascii c));
  try congruence; lia.
Qed.

Lemma compare_not_gt_trans (s1 : string) :
  forall s2 s3,
    String.compare s1 s2 <> Gt -> String.compare s2 s3 <> Gt ->
    String.compare s1 s3 <> Gt.
Proof.
  induction s1 as [|a s1 IH]; intros [|b s2] [|c s3]; simpl; try congruence.
  unfold Ascii.compare.
  destruct (N.compare_spec (N_of_ascii a) (N_of_ascii b)) as [Hab|Hab|Hab];
  destruct (N.compare_spec (N_of_ascii b) (N_of_ascii c)) as [Hbc|Hbc|Hbc];
  destruct (N.compare_spec (N_of_ascii a) (N_of_ascii c)) as [Hac|Hac|Hac];
  try congruence; try lia.
  apply IH.
Qed.

Lemma leb_not_gt (s1 s2 : string) :
  String.leb s1 s2 = true <-> String.compare s1 s2 <> Gt.
Proof.
  unfold String.leb. destruct (String.compare s1 s2); split; congruence.
Qed.

Lemma le_refl (s : string) : le s s.
Proof.
  unfold le. apply leb_not_gt.
  assert (H : String.compare s s = Eq).
  { induction s as [|a s IH]; simpl; [reflexivity|].
    unfold Ascii.compare. now rewrite N.compare_refl. }
  congruence.
Qed.

Lemma le_trans (s1 s2 s3 : string) : le s1 s2 -> le s2 s3 -> le s1 s3.
Proof.
  unfold le. rewrite !leb_not_gt. apply compare_not_gt_trans.
Qed.

Lemma le_total (s1 s2 : string) : le s1 s2 \/ le s2 s1.
Proof. apply String.leb_total. Qed.

Lemma not_le_le (s1 s2 : string) : String.leb s1 s2 = false -> le s2 s1.
Proof.
  intros H. destruct (le_total s1 s2) as [H'|H']; [|exact H'].
  unfold le in H'. congruence.
Qed.

Lemma le_antisym (s1 s2 : string) : le s1 s2 -> le s2 s1 -> s1 = s2.
Proof. unfold le. intros H1 H2. now apply String.leb_antisym. Qed.

(** ** Digits *)

Lemma digit_cases (x : Z) :
  0 <= x < 10 ->
  x = 0 \/ x = 1 \/ x = 2 \/ x = 3 \/ x = 4 \/ x = 5 \/ x = 6 \/ x = 7 \/
  x = 8 \/ x = 9.
Proof. lia. Qed.

Ltac each_digit x H :=
  let C := fresh "C" in
  pose proof (digit_cases x H) as C;
  repeat (destruct C as [C|C]; [subst x|]); [..|subst x].

Lemma digit_char_compare (x y : Z) :
  0 <= x < 10 -> 0 <= y < 10 ->
  Ascii.compare (digit_char x) (digit_char y) = (x ?= y).
Proof.
  intros Hx Hy. each_digit x Hx; each_digit y Hy; reflexivity.
Qed.

Lemma digits_app (k : nat) :
  forall n acc rest, (digits k n acc ++ rest)%string = digits k n (acc ++ rest)%string.
Proof.
  induction k as [|k IH]; intros n acc rest; simpl; [reflexivity|].
  now rewrite IH.
Qed.

Lemma zfill_app (k : nat) (n : Z) (rest : string) :
  (zfill k n ++ rest)%string = digits k n rest.
Proof. unfold zfill. now rewrite digits_app. Qed.

Lemma compare_cons (a b : ascii) (s t : string) :
  String.compare (String a s) (String b t) =
  match Ascii.compare a b with
  | Eq => String.compare s t
  | c => c
  end.
Proof. reflexivity. Qed.

(** Two fields of the same width compare like the numbers they print. *)
Lemma digits_compare (k : nat) :
  forall a b s t,
    0 <= a < 10 ^ Z.of_nat k -> 0 <= b < 10 ^ Z.of_nat k ->
    String.compare (digits k a s) (digits k b t) =
    match a ?= b with
    | Eq => String.compare s t
    | c => c
    end.
Proof.
  induction k as [|k IH]; intros a b s t Ha Hb.
  - simpl in *. assert (a = 0) by lia. assert (b = 0) by lia. subst.
    reflexivity.
  - rewrite Nat2Z.inj_succ, Z.pow_succ_r in Ha, Hb by lia.
    simpl digits.
    rewrite IH by (split; [apply Z.div_pos; lia | apply Z.div_lt_upper_bound; lia]).
    rewrite compare_cons.
    rewrite digit_char_compare by (apply Z.mod_pos_bound; lia).
    pose proof (Z.div_mod a 10 ltac:(lia)) as Ea.
    pose proof (Z.div_mod b 10 ltac:(lia)) as Eb.
    pose proof (Z.mod_pos_bound a 10 ltac:(lia)).
    pose proof (Z.mod_pos_bound b 10 ltac:(lia)).
    destruct (Z.compare_spec (a / 10) (b / 10));
    destruct (Z.compare_spec (a mod 10) (b mod 10));
    destruct (Z.compare_spec a b); try reflexivity; lia.
Qed.

End PyStrFacts.

(* ================================================================== *)
(** * Facts about dates and their renderings *)
(* ================================================================== *)

Module ClockFacts.
Import PyStr PyStrFacts Clock.

Lemma strftime_ymd_digits (t : datetime) :
  1000 <= year t ->
  strftime_ymd t =
  digits 4 (year t)
    (String "-" (digits 2 (month t) (String "-" (digits 2 (day t) EmptyString)))).
Proof.
  intros Hy. unfold strftime_ymd, year_field.
  destruct (Z.ltb_spec (year t) 1000); [lia|].
  rewrite !zfill_app. reflexivity.
Qed.

Lemma days_in_month_bounds (y m : Z) : 28 <= days_in_month y m <= 31.
Proof.
  unfold days_in_month.
  destruct (m =? 2); [destruct (is_leap y); lia|].
  destruct ((m =? 4) || (m =? 6) || (m =? 9) || (m =? 11)); lia.
Qed.

Lemma valid_dateb_true (y m d : Z) : valid_date y m d -> valid_dateb y m d = true.
Proof.
  unfold valid_date, valid_dateb. intros (Hy & Hm & Hd).
  repeat (apply andb_true_intro; split); apply Z.leb_le; lia.
Qed.

Lemma valid_dateb_valid (y m d : Z) : valid_dateb y m d = true -> valid_date y m d.
Proof.
  unfold valid_date, valid_dateb. intros H.
  repeat (apply andb_prop in H; destruct H as [H ?]).
  rewrite Z.leb_le in *. lia.
Qed.

(** The rendering of a date orders like the date. *)
Lemma strftime_ymd_compare (a b : datetime) :
  canonical a -> canonical b ->
  String.compare (strftime_ymd a) (strftime_ymd b) =
  match year a ?= year b with
  | Eq => match month a ?= month b with
          | Eq => day a ?= day b
          | c => c
          end
  | c => c
  end.
Proof.
  intros ((Hya & Hma & Hda) & Ya) ((Hyb & Hmb & Hdb) & Yb).
  pose proof (days_in_month_bounds (year a) (month a)).
  pose proof (days_in_month_bounds (year b) (month b)).
  rewrite !strftime_ymd_digits by assumption.
  rewrite digits_compare by (simpl; lia).
  rewrite compare_cons. change (Ascii.compare "-" "-") with Eq. cbv iota.
  rewrite digits_compare by (simpl; lia).
  rewrite compare_cons. change (Ascii.compare "-" "-") with Eq. cbv iota.
  rewrite digits_compare by (simpl; lia).
  change (String.compare EmptyString EmptyString) with Eq.
  destruct (year a ?= year b); try reflexivity.
  destruct (month a ?= month b); try reflexivity.
  destruct (day a ?= day b); reflexivity.
Qed.

Lemma strftime_ymd_leb (a b : datetime) :
  canonical a -> canonical b ->
  String.leb (strftime_ymd a) (strftime_ymd b) = date_leb a b.
Proof.
  intros Ha Hb. unfold String.leb, date_leb.
  rewrite strftime_ymd_compare by assumption.
  destruct (Z.compare_spec (year a) (year b)) as [Hy|Hy|Hy];
  destruct (Z.compare_spec (month a) (month b)) as [Hm|Hm|Hm];
  destruct (Z.compare_spec (day a) (day b)) as [Hd|Hd|Hd];
  repeat match goal with
  | |- context [?x <? ?y] => destruct (Z.ltb_spec x y)
  | |- context [?x =? ?y] => destruct (Z.eqb_spec x y)
  | |- context [?x <=? ?y] => destruct (Z.leb_spec x y)
  end; simpl; try reflexivity; lia.
Qed.

Lemma date_leb_refl (a : datetime) : date_leb a a = true.
Proof.
  unfold date_leb. rewrite !Z.eqb_refl, Z.leb_refl.
  now rewrite !orb_true_r.
Qed.

Lemma date_leb_spec (a b : datetime) :
  date_leb a b = true <->
  year a < year b \/
  (year a = year b /\ (month a < month b \/ (month a = month b /\ day a <= day b))).
Proof.
  unfold date_leb.
  rewrite !orb_true_iff, !andb_true_iff, !orb_true_iff, !andb_true_iff.
  rewrite !Z.ltb_lt, !Z.eqb_eq, Z.leb_le. tauto.
Qed.

Lemma date_leb_trans (a b c : datetime) :
  date_leb a b = true -> date_leb b c = true -> date_leb a c = true.
Proof. rewrite !date_leb_spec. lia. Qed.

(** ** Stepping back *)

Lemma prev_day_valid (t : datetime) :
  valid t -> 2 <= year t \/ 1 < month t -> valid (prev_day t).
Proof.
  unfold valid, valid_date, prev_day. intros (Hy & Hm & Hd) H2.
  destruct (Z.ltb_spec 1 (day t)); simpl.
  - lia.
  - destruct (Z.ltb_spec 1 (month t)); simpl.
    + pose proof (days_in_month_bounds (year t) (month t - 1)). lia.
    + change (days_in_month (year t - 1) 12) with 31. lia.
Qed.

Lemma prev_day_le (t : datetime) : valid t -> date_leb (prev_day t) t = true.
Proof.
  unfold valid, valid_date, prev_day. intros (Hy & Hm & Hd).
  rewrite date_leb_spec.
  destruct (Z.ltb_spec 1 (day t)); simpl; [lia|].
  destruct (Z.ltb_spec 1 (month t)); simpl; lia.
Qed.

(** Stepping back at most 30 days stays in the same year or reaches
    December of the year before. *)
Lemma minus_days_inv (t : datetime) (n : nat) :
  valid t -> 2 <= year t -> (n <= 30)%nat ->
  let u := minus_days t n in
  valid u /\
  (year u = year t \/
   (year u = year t - 1 /\ month u = 12 /\ 31 - day u < Z.of_nat n)).
Proof.
  intros Hv Hy. induction n as [|n IH]; intros Hn.
  - simpl. auto.
  - specialize (IH ltac:(lia)). cbv zeta in IH.
    destruct IH as [Hu Hcase].
    unfold minus_days in *. rewrite Nat.iter_succ.
    set (u := Nat.iter n prev_day t) in *.
    cbv zeta. split.
    + apply prev_day_valid; [exact Hu|].
      destruct Hcase as [E|(E & E' & _)]; lia.
    + destruct Hu as (Huy & Hum & Hud).
      unfold prev_day.
      destruct (Z.ltb_spec 1 (day u)); cbn [year month day]; [lia|].
      destruct (Z.ltb_spec 1 (month u)); cbn [year month day]; lia.
Qed.

Lemma minus_days_valid (t : datetime) (n : nat) :
  valid t -> 2 <= year t -> (n <= 30)%nat -> valid (minus_days t n).
Proof. intros. now apply minus_days_inv. Qed.

Lemma minus_days_year (t : datetime) (n : nat) :
  valid t -> 2 <= year t -> (n <= 30)%nat -> year t - 1 <= year (minus_days t n).
Proof.
  intros Hv Hy Hn. destruct (minus_days_inv t n Hv Hy Hn) as [_ [E|(E & _)]]; lia.
Qed.

Lemma minus_days_canonical (t : datetime) (n : nat) :
  valid t -> 1001 <= year t -> (n <= 30)%nat -> canonical (minus_days t n).
Proof.
  intros Hv Hy Hn. split.
  - apply minus_days_valid; [exact Hv|lia|exact Hn].
  - pose proof (minus_days_year t n Hv ltac:(lia) Hn). lia.
Qed.

Lemma minus_days_le (t : datetime) (n : nat) :
  valid t -> 2 <= year t -> (n <= 30)%nat -> date_leb (minus_days t n) t = true.
Proof.
  intros Hv Hy. induction n as [|n IH]; intros Hn.
  - apply date_leb_refl.
  - unfold minus_days. rewrite Nat.iter_succ.
    apply date_leb_trans with (b := minus_days t n).
    + apply prev_day_le. apply minus_days_valid; [assumption..|lia].
    + apply IH. lia.
Qed.

(** ** Reading back what [strftime] printed *)

Lemma digit_val_char (x : Z) : 0 <= x < 10 -> digit_val (digit_char x) = Some x.
Proof. intros Hx. each_digit x Hx; reflexivity. Qed.

Lemma parse_month_digits (m : Z) (rest : string) :
  1 <= m <= 12 -> parse_month (digits 2 m (String "-" rest)) = Some (m, rest).
Proof.
  intros Hm.
  assert (C : m = 1 \/ m = 2 \/ m = 3 \/ m = 4 \/ m = 5 \/ m = 6 \/ m = 7 \/
              m = 8 \/ m = 9 \/ m = 10 \/ m = 11 \/ m = 12) by lia.
  repeat (destruct C as [C|C]; [subst m; reflexivity|]). subst m. reflexivity.
Qed.

Lemma parse_day_digits (d : Z) :
  1 <= d <= 31 -> parse_day (digits 2 d EmptyString) = Some d.
Proof.
  intros Hd.
  assert (C : d = 1 \/ d = 2 \/ d = 3 \/ d = 4 \/ d = 5 \/ d = 6 \/ d = 7 \/
              d = 8 \/ d = 9 \/ d = 10 \/ d = 11 \/ d = 12 \/ d = 13 \/
              d = 14 \/ d = 15 \/ d = 16 \/ d = 17 \/ d = 18 \/ d = 19 \/
              d = 20 \/ d = 21 \/ d = 22 \/ d = 23 \/ d = 24 \/ d = 25 \/
              d = 26 \/ d = 27 \/ d = 28 \/ d = 29 \/ d = 30 \/ d = 31) by lia.
  repeat (destruct C as [C|C]; [subst d; reflexivity|]). subst d. reflexivity.
Qed.

Lemma strptime_strftime (t : datetime) :
  canonical t ->
  strptime_ymd (strftime_ymd t) =
  Some (mkDatetime (year t) (month t) (day t) 0 0 0 0).
Proof.
  intros (Hv & Hy1000). pose proof Hv as (Hy & Hm & Hd).
  pose proof (days_in_month_bounds (year t) (month t)).
  rewrite strftime_ymd_digits by exact Hy1000.
  set (tail := digits 2 (month t) _).
  change (digits 4 (year t) (String "-" tail)) with
    (String (digit_char (year t / 10 / 10 / 10 mod 10))
      (String (digit_char (year t / 10 / 10 mod 10))
        (String (digit_char (year t / 10 mod 10))
          (String (digit_char (year t mod 10)) (String "-" tail))))).
  unfold strptime_ymd.
  rewrite !digit_val_char by (apply Z.mod_pos_bound; lia).
  change (Ascii.eqb "-" "-") with true. cbv iota.
  subst tail. rewrite parse_month_digits by lia.
  rewrite parse_day_digits by lia.
  assert (E : 1000 * (year t / 10 / 10 / 10 mod 10) +
              100 * (year t / 10 / 10 mod 10) +
              10 * (year t / 10 mod 10) + year t mod 10 = year t).
  { pose proof (Z.div_mod (year t) 10 ltac:(lia)).
    pose proof (Z.div_mod (year t / 10) 10 ltac:(lia)).
    pose proof (Z.div_mod (year t / 10 / 10) 10 ltac:(lia)).
    assert (0 <= year t / 10 / 10 / 10 < 10).
    { split; [repeat apply Z.div_pos; lia|].
      repeat apply Z.div_lt_upper_bound; lia. }
    rewrite (Z.mod_small (year t / 10 / 10 / 10) 10) by lia. lia. }
  cbv zeta. rewrite E.
  now rewrite valid_dateb_true.
Qed.

(** ** Strings outside ASCII *)

Lemma digit_char_ascii (x : Z) :
  (nat_of_ascii (digit_char (x mod 10)) <? 128)%nat = true.
Proof.
  pose proof (Z.mod_pos_bound x 10 ltac:(lia)) as Hx.
  set (y := x mod 10) in *. clearbody y. each_digit y Hx; reflexivity.
Qed.

Lemma digits_ascii (k : nat) :
  forall n acc, is_ascii (digits k n acc) = is_ascii acc.
Proof.
  induction k as [|k IH]; intros n acc; [reflexivity|].
  cbn [digits]. rewrite IH. cbn [is_ascii]. now rewrite digit_char_ascii.
Qed.

Lemma strftime_ymd_ascii (t : datetime) :
  1000 <= year t -> is_ascii (strftime_ymd t) = true.
Proof.
  intros Hy. rewrite strftime_ymd_digits by exact Hy.
  rewrite digits_ascii. cbn [is_ascii]. rewrite digits_ascii.
  cbn [is_ascii]. rewrite digits_ascii. reflexivity.
Qed.

(** On ASCII strings the library's answer is the one computed here. *)
Lemma strptime_ascii (lib : string -> option datetime) (s : string) :
  is_ascii s = true -> strptime lib s = strptime_ymd s.
Proof. unfold strptime. now intros ->. Qed.

(** What [strftime] printed, [strptime] reads back, whatever the library
    makes of other scripts. *)
Lemma strptime_written (lib : string -> option datetime) (t : datetime) :
  canonical t ->
  strptime lib (strftime_ymd t) =
  Some (mkDatetime (year t) (month t) (day t) 0 0 0 0).
Proof.
  intros Hc. rewrite strptime_ascii by (apply strftime_ymd_ascii, Hc).
  now apply strptime_strftime.
Qed.

End ClockFacts.

(* ================================================================== *)
(** * Facts about the history operations *)
(* ================================================================== *)

Module HistoryFacts.
Import Clock History.

(** ** Sorting *)

Lemma insert_by_date_In (e x : entry) (l : list entry) :
  In x (insert_by_date e l) <-> x = e \/ In x l.
Proof.
  induction l as [|y l IH]; simpl.
  - intuition.
  - destruct (String.leb (date e) (date y)); simpl; [intuition|].
    rewrite IH. intuition.
Qed.

Lemma insert_by_date_perm (e : entry) (l : list entry) :
  Permutation (e :: l) (insert_by_date e l).
Proof.
  induction l as [|y l IH]; simpl; [reflexivity|].
  destruct (String.leb (date e) (date y)); [reflexivity|].
  rewrite perm_swap. now apply perm_skip.
Qed.

Lemma insert_by_date_sorted (e : entry) (l : list entry) :
  sorted l -> sorted (insert_by_date e l).
Proof.
  unfold sorted. induction 1 as [|y l Hl IH Hy]; simpl.
  - repeat constructor.
  - destruct (String.leb (date e) (date y)) eqn:E.
    + constructor; [now constructor|].
      constructor; [exact E|].
      rewrite Forall_forall in *. intros z Hz.
      eapply PyStrFacts.le_trans; [exact E|]. now apply Hy.
    + constructor; [exact IH|].
      rewrite Forall_forall in *. intros z Hz.
      apply insert_by_date_In in Hz. destruct Hz as [->|Hz].
      * now apply PyStrFacts.not_le_le.
      * now apply Hy.
Qed.

Lemma sort_by_date_perm (l : list entry) : Permutation l (sort_by_date l).
Proof.
  induction l as [|e l IH]; simpl; [reflexivity|].
  rewrite <- insert_by_date_perm. now apply perm_skip.
Qed.

Lemma sort_by_date_In (x : entry) (l : list entry) :
  In x (sort_by_date l) <-> In x l.
Proof.
  split; apply Permutation_in;
    [symmetry|]; apply sort_by_date_perm.
Qed.

Lemma sort_by_date_sorted (l : list entry) : sorted (sort_by_date l).
Proof.
  induction l as [|e l IH]; simpl.
  - constructor.
  - now apply insert_by_date_sorted.
Qed.

Lemma sort_by_date_length (l : list entry) :
  List.length (sort_by_date l) = List.length l.
Proof. symmetry. apply Permutation_length, sort_by_date_perm. Qed.

(** The sort is stable: entries with the same date keep their order. *)
Lemma insert_by_date_stable (k : string) (e : entry) (l : list entry) :
  sorted l ->
  filter (fun x => (date x =? k)%string) (insert_by_date e l) =
  filter (fun x => (date x =? k)%string) (e :: l).
Proof.
  unfold sorted. induction 1 as [|y l Hl IH Hy]; [reflexivity|].
  cbn [insert_by_date].
  destruct (String.leb (date e) (date y)) eqn:E; [reflexivity|].
  cbn [filter] in *. rewrite IH.
  destruct (String.eqb_spec (date e) k) as [Ek|Ek];
  destruct (String.eqb_spec (date y) k) as [Yk|Yk]; try reflexivity.
  subst k. rewrite <- Yk in E.
  pose proof (PyStrFacts.le_refl (date y)) as R. unfold PyStr.le in R.
  congruence.
Qed.

Lemma sort_by_date_stable (k : string) (l : list entry) :
  filter (fun x => (date x =? k)%string) (sort_by_date l) =
  filter (fun x => (date x =? k)%string) l.
Proof.
  induction l as [|e l IH]; [reflexivity|].
  cbn [sort_by_date fold_right].
  rewrite insert_by_date_stable by apply sort_by_date_sorted.
  cbn [filter]. unfold sort_by_date in IH. now rewrite IH.
Qed.

(** ** Pruning and capping *)

Lemma sorted_filter (p : entry -> bool) (l : list entry) :
  sorted l -> sorted (filter p l).
Proof.
  unfold sorted. induction 1 as [|y l Hl IH Hy]; simpl; [constructor|].
  destruct (p y); [|exact IH].
  constructor; [exact IH|].
  rewrite Forall_forall in *. intros z Hz. apply filter_In in Hz.
  now apply Hy.
Qed.

Lemma prune_sorted (cutoff : string) (l : list entry) :
  sorted l -> sorted (prune cutoff l).
Proof. apply sorted_filter. Qed.

Lemma prune_In (cutoff : string) (x : entry) (l : list entry) :
  In x (prune cutoff l) <-> In x l /\ PyStr.le cutoff (date x).
Proof. unfold prune. now rewrite filter_In. Qed.

Lemma prune_length (cutoff : string) (l : list entry) :
  (List.length (prune cutoff l) <= List.length l)%nat.
Proof. apply filter_length_le. Qed.

Lemma sorted_app_inv (l1 l2 : list entry) :
  sorted (l1 ++ l2) ->
  sorted l1 /\ sorted l2 /\
  forall a b, In a l1 -> In b l2 -> PyStr.le (date a) (date b).
Proof.
  unfold sorted. induction l1 as [|x l1 IH]; simpl; intros H.
  - repeat split; [constructor|exact H|contradiction].
  - inversion H as [|? ? Hs Hx]; subst.
    destruct (IH Hs) as (H1 & H2 & H3).
    rewrite Forall_app in Hx. destruct Hx as [Hx1 Hx2].
    repeat split; [now constructor|exact H2|].
    intros a b [<-|Ha] Hb; [|now apply H3].
    rewrite Forall_forall in Hx2. now apply Hx2.
Qed.

Lemma last_n_split {A : Type} (n : nat) (l : list A) :
  l = firstn (List.length l - n) l ++ last_n n l.
Proof. unfold last_n. now rewrite firstn_skipn. Qed.

Lemma last_n_In {A : Type} (n : nat) (x : A) (l : list A) :
  In x (last_n n l) -> In x l.
Proof.
  intros H. rewrite (last_n_split n l). apply in_or_app. now right.
Qed.

Lemma last_n_length {A : Type} (n : nat) (l : list A) :
  List.length (last_n n l) = Nat.min n (List.length l).
Proof. unfold last_n. rewrite length_skipn. lia. Qed.

Lemma last_n_sorted (n : nat) (l : list entry) :
  sorted l -> sorted (last_n n l).
Proof.
  intros H. rewrite (last_n_split n l) in H.
  now apply sorted_app_inv in H.
Qed.

Lemma cutoff_of_eq (t : datetime) :
  cutoff_of t = strftime_ymd (minus_days t 30).
Proof. unfold cutoff_of. reflexivity. Qed.

Lemma add_today_rating_unfold t1 t2 t3 h r :
  add_today_rating t1 t2 t3 h (Some r) =
  cap (prune (cutoff_of t3)
         (sort_by_date (upsert (strftime_ymd t1) r (isoformat t2) h))).
Proof. reflexivity. Qed.

Lemma cap_In (x : entry) (l : list entry) : In x (cap l) -> In x l.
Proof.
  unfold cap. destruct (30 <? List.length l)%nat; [apply last_n_In|auto].
Qed.

Lemma cap_length (l : list entry) : (List.length (cap l) <= 30)%nat.
Proof.
  unfold cap. destruct (Nat.ltb_spec 30 (List.length l)).
  - rewrite last_n_length. lia.
  - lia.
Qed.

Lemma cap_length_le (l : list entry) : (List.length (cap l) <= List.length l)%nat.
Proof.
  unfold cap. destruct (Nat.ltb_spec 30 (List.length l)).
  - rewrite last_n_length. lia.
  - lia.
Qed.

Lemma cap_sorted (l : list entry) : sorted l -> sorted (cap l).
Proof.
  unfold cap. destruct (30 <? List.length l)%nat; [apply last_n_sorted|auto].
Qed.


(** ** The upsert *)

Section Upsert.
Variables (today : string) (r : Z) (stamp : string).

Let fresh : entry := mkEntry today r stamp.

Lemma update_today_none (h : list entry) :
  update_today today r stamp h = None <->
  Forall (fun e => date e <> today) h.
Proof.
  induction h as [|e h IH]; simpl.
  - split; [constructor|reflexivity].
  - destruct (String.eqb_spec (date e) today) as [E|E].
    + split; [discriminate|]. intros H. inversion H; subst. contradiction.
    + destruct (update_today today r stamp h) eqn:U; simpl.
      * split; [discriminate|]. intros H. inversion H; subst.
        apply IH in H3. discriminate.
      * split; [|reflexivity]. intros _. constructor; [exact E|].
        now apply IH.
Qed.

(** When the loop breaks, exactly the first entry dated [today] has been
    replaced, at its place. *)
Lemma update_today_some (h h' : list entry) :
  update_today today r stamp h = Some h' ->
  exists l1 e l2,
    h = l1 ++ e :: l2 /\ date e = today /\
    Forall (fun x => date x <> today) l1 /\
    h' = l1 ++ fresh :: l2.
Proof.
  revert h'. induction h as [|e h IH]; simpl; intros h' H; [discriminate|].
  destruct (String.eqb_spec (date e) today) as [E|E].
  - inversion H; subst. exists [], e, h. repeat split; auto.
  - destruct (update_today today r stamp h) as [h1|] eqn:U; [|discriminate].
    simpl in H. inversion H; subst.
    destruct (IH h1 eq_refl) as (l1 & e' & l2 & -> & Hd & Hl1 & ->).
    exists (e :: l1), e', l2. repeat split; auto.
Qed.

Lemma upsert_fresh (h : list entry) : In fresh (upsert today r stamp h).
Proof.
  unfold upsert. destruct (update_today today r stamp h) as [h'|] eqn:U.
  - apply update_today_some in U.
    destruct U as (l1 & e & l2 & _ & _ & _ & ->).
    apply in_or_app. right. now left.
  - apply in_or_app. right. now left.
Qed.

Lemma upsert_In (x : entry) (h : list entry) :
  In x (upsert today r stamp h) -> x = fresh \/ In x h.
Proof.
  unfold upsert. destruct (update_today today r stamp h) as [h'|] eqn:U.
  - apply update_today_some in U.
    destruct U as (l1 & e & l2 & -> & _ & _ & ->).
    rewrite !in_app_iff. simpl. intuition.
  - rewrite in_app_iff. simpl. intuition.
Qed.

Lemma upsert_keeps (x : entry) (h : list entry) :
  In x h -> date x <> today -> In x (upsert today r stamp h).
Proof.
  unfold upsert. destruct (update_today today r stamp h) as [h'|] eqn:U.
  - apply update_today_some in U.
    destruct U as (l1 & e & l2 & -> & He & _ & ->).
    rewrite !in_app_iff. simpl. intros [H|[H|H]] Hx; auto.
    subst x. contradiction.
  - rewrite in_app_iff. auto.
Qed.

Lemma upsert_length (h : list entry) :
  List.length (upsert today r stamp h) =
  if existsb (fun e => (date e =? today)%string) h
  then List.length h else S (List.length h).
Proof.
  unfold upsert. destruct (update_today today r stamp h) as [h'|] eqn:U.
  - apply update_today_some in U.
    destruct U as (l1 & e & l2 & -> & He & _ & ->).
    rewrite existsb_app. simpl. apply String.eqb_eq in He. rewrite He.
    rewrite orb_true_r. rewrite !length_app. reflexivity.
  - apply update_today_none in U.
    assert (E : existsb (fun e => (date e =? today)%string) h = false).
    { induction U as [|e h He Hh IH]; simpl; [reflexivity|].
      apply String.eqb_neq in He. now rewrite He, IH. }
    rewrite E, length_app. simpl. lia.
Qed.

Lemma upsert_NoDup (h : list entry) :
  NoDup (map date h) -> NoDup (map date (upsert today r stamp h)).
Proof.
  intros H. unfold upsert.
  destruct (update_today today r stamp h) as [h'|] eqn:U.
  - apply update_today_some in U.
    destruct U as (l1 & e & l2 & -> & He & _ & ->).
    rewrite map_app in *. simpl in *. now rewrite He in H.
  - apply update_today_none in U.
    rewrite map_app. simpl.
    apply NoDup_app; [exact H|repeat constructor; auto|].
    intros d Hd [<-|[]]. apply in_map_iff in Hd.
    destruct Hd as (e & Ee & He). rewrite Forall_forall in U.
    now apply (U e He).
Qed.

End Upsert.

(** Pruning keeps the dates pairwise distinct. *)
Lemma prune_dates_distinct (cutoff : string) (history : list entry) :
  NoDup (map date history) -> NoDup (map date (prune cutoff history)).
Proof.
  unfold prune. induction history as [|x l IH]; cbn [map filter]; intros H.
  - constructor.
  - apply NoDup_cons_iff in H. destruct H as [Hx Hl].
    destruct (String.leb cutoff (date x)); cbn [map]; [|now apply IH].
    apply NoDup_cons; [|now apply IH].
    contradict Hx. apply in_map_iff in Hx.
    destruct Hx as (y & Ey & Hy). apply filter_In in Hy.
    apply in_map_iff. exists y. tauto.
Qed.

Lemma cap_dates_distinct (history : list entry) :
  NoDup (map date history) -> NoDup (map date (cap history)).
Proof.
  unfold cap. destruct (30 <? List.length history)%nat; [|auto].
  intros H. rewrite (last_n_split 30 history), map_app in H.
  now apply NoDup_app_remove_l in H.
Qed.

(** In a sorted history with distinct dates, none later than [x]'s, the
    entry [x] comes last. *)
Lemma sorted_max_last (x : entry) (l : list entry) :
  sorted l -> NoDup (map date l) -> In x l ->
  Forall (fun e => PyStr.le (date e) (date x)) l ->
  exists l1, l = l1 ++ [x].
Proof.
  intros Hs Hn Hx Hle.
  destruct (in_split x l Hx) as (l1 & l2 & ->).
  exists l1. destruct l2 as [|y l2]; [reflexivity|exfalso].
  apply sorted_app_inv in Hs. destruct Hs as (_ & Hs & _).
  inversion Hs as [|? ? _ Hy]; subst.
  rewrite Forall_forall in Hy, Hle.
  assert (E : date x = date y).
  { apply PyStrFacts.le_antisym.
    - apply Hy. now left.
    - apply Hle. apply in_or_app. right. right. now left. }
  rewrite map_app in Hn. simpl in Hn.
  apply NoDup_remove_2 in Hn. apply Hn.
  apply in_or_app. right. rewrite E. now left.
Qed.

(** ** Entries dated later than today *)









(** ** Dates in the form the script writes *)

Lemma upsert_written (t : datetime) (r : Z) (stamp : string) (h : list entry) :
  canonical t -> Forall written h ->
  Forall written (upsert (strftime_ymd t) r stamp h).
Proof.
  intros Ht Hh. rewrite Forall_forall in *. intros x Hx.
  apply upsert_In in Hx. destruct Hx as [->|Hx]; [|now apply Hh].
  exists t. split; [exact Ht|reflexivity].
Qed.

Lemma prune_written (cutoff : string) (h : list entry) :
  Forall written h -> Forall written (prune cutoff h).
Proof.
  rewrite !Forall_forall. intros Hh x Hx. apply prune_In in Hx. now apply Hh.
Qed.

Lemma add_today_rating_written t1 t2 t3 h r :
  canonical t1 -> Forall written h ->
  Forall written (add_today_rating t1 t2 t3 h (Some r)).
Proof.
  intros Ht Hh. rewrite add_today_rating_unfold.
  pose proof (upsert_written t1 r (isoformat t2) h Ht Hh) as Hu.
  rewrite Forall_forall in *. intros x Hx.
  apply cap_In, prune_In in Hx. destruct Hx as [Hx _].
  apply (proj1 (sort_by_date_In _ _)) in Hx. now apply Hu.
Qed.

(** On written dates the order of the strings is the order of the
    calendar: a sorted history of written dates lists days in
    nondecreasing order. *)
Lemma sorted_written_chronological (l : list entry) :
  sorted l -> Forall written l ->
  exists days,
    map date l = map strftime_ymd days /\ Forall canonical days /\
    chronological days.
Proof.
  induction l as [|a l IH]; intros Hs Hw.
  - exists []. repeat split; constructor.
  - inversion Hs as [|? ? Hs' Ha]; subst. inversion Hw as [|? ? Wa Wl]; subst.
    destruct (IH Hs' Wl) as (days & E & Hc & Hch).
    destruct Wa as (d & Hd & Ed).
    exists (d :: days). split; [cbn [map]; now rewrite Ed, E|].
    split; [now constructor|]. constructor; [exact Hch|].
    rewrite Forall_forall in *. intros d' Hd'.
    assert (Hin : In (strftime_ymd d') (map date l)).
    { rewrite E. now apply in_map. }
    apply in_map_iff in Hin. destruct Hin as (e & Ee & He).
    specialize (Ha e He). unfold PyStr.le in Ha. rewrite Ed, Ee in Ha.
    rewrite ClockFacts.strftime_ymd_leb in Ha; [exact Ha|exact Hd|now apply Hc].
Qed.

End HistoryFacts.

(* ================================================================== *)
(** * Facts about the chart coordinates *)
(* ================================================================== *)

Module ChartFacts.
Import Chart.

Lemma fold_min_le (rest : list Z) :
  forall x, fold_left Z.min rest x <= x /\
            forall r, In r rest -> fold_left Z.min rest x <= r.
Proof.
  induction rest as [|y rest IH]; intros x; simpl.
  - split; [lia|contradiction].
  - destruct (IH (Z.min x y)) as [H1 H2]. split; [lia|].
    intros r [<-|Hr]; [lia|now apply H2].
Qed.

Lemma fold_max_ge (rest : list Z) :
  forall x, x <= fold_left Z.max rest x /\
            forall r, In r rest -> r <= fold_left Z.max rest x.
Proof.
  induction rest as [|y rest IH]; intros x; simpl.
  - split; [lia|contradiction].
  - destruct (IH (Z.max x y)) as [H1 H2]. split; [lia|].
    intros r [<-|Hr]; [lia|now apply H2].
Qed.

Lemma py_min_le (ratings : list Z) (r : Z) : In r ratings -> py_min ratings <= r.
Proof.
  destruct ratings as [|x rest]; [contradiction|]. unfold py_min.
  destruct (fold_min_le rest x) as [H1 H2].
  intros [<-|Hr]; [exact H1|now apply H2].
Qed.

Lemma py_max_ge (ratings : list Z) (r : Z) : In r ratings -> r <= py_max ratings.
Proof.
  destruct ratings as [|x rest]; [contradiction|]. unfold py_max.
  destruct (fold_max_ge rest x) as [H1 H2].
  intros [<-|Hr]; [exact H1|now apply H2].
Qed.

Lemma rating_range_ge_100 (ratings : list Z) :
  ratings <> [] -> 100 <= rating_range ratings.
Proof.
  destruct ratings as [|x rest]; [congruence|]. intros _.
  pose proof (py_min_le (x :: rest) x (or_introl eq_refl)).
  pose proof (py_max_ge (x :: rest) x (or_introl eq_refl)).
  unfold rating_range, max_rating, min_rating. lia.
Qed.

(** Every point lies between the top and the bottom grid line. *)
Lemma point_y_bounds (ratings : list Z) (r : Z) :
  In r ratings -> margin <= point_y ratings r <= height - margin.
Proof.
  intros Hr.
  assert (Hne : ratings <> []) by (intros ->; contradiction).
  pose proof (rating_range_ge_100 ratings Hne) as Hrange.
  pose proof (py_min_le ratings r Hr) as Hmin.
  pose proof (py_max_ge ratings r Hr) as Hmax.
  unfold point_y, height, margin.
  unfold rating_range, min_rating in Hrange.
  set (range := rating_range ratings) in *.
  set (top := max_rating ratings) in *.
  assert (Htop : 50 <= top - r) by (unfold top, max_rating; lia).
  assert (Hbot : top - r <= range - 50).
  { unfold range, rating_range, top, min_rating. lia. }
  assert (Hpos : 0 < range) by (unfold range, rating_range, top, min_rating; lia).
  assert (0 <= (top - r) * (500 - 2 * 60) / range).
  { apply Z.div_pos; lia. }
  assert ((top - r) * (500 - 2 * 60) / range <= 380).
  { apply Z.div_le_upper_bound; lia. }
  lia.
Qed.

(** The x-coordinate grows with the index as long as the step is at least
    one unit, that is for up to 881 points. *)
Lemma point_x_lt (ratings : list Z) (i j : nat) :
  1 <= x_divisor ratings <= 880 -> (i < j)%nat ->
  point_x ratings i < point_x ratings j.
Proof.
  intros Hd Hij. unfold point_x, width, margin.
  set (d := x_divisor ratings) in *.
  assert (H : (Z.of_nat i * (1000 - 2 * 60) + 1 * d) / d
              <= Z.of_nat j * (1000 - 2 * 60) / d).
  { apply Z.div_le_mono; lia. }
  rewrite Z.div_add in H by lia. lia.
Qed.

Lemma xs_seq (ratings : list Z) :
  xs ratings = map (point_x ratings) (seq 0 (List.length ratings)).
Proof.
  unfold xs, points. rewrite map_map. cbn [fst].
  rewrite <- (map_map fst (point_x ratings)).
  f_equal. clear.
  generalize 0%nat. induction ratings as [|r l IH]; intros s; simpl.
  - reflexivity.
  - now rewrite IH.
Qed.

Lemma ys_map (ratings : list Z) : ys ratings = map (point_y ratings) ratings.
Proof.
  unfold ys, points. rewrite map_map. cbn [snd].
  rewrite <- (map_map snd (point_y ratings)).
  f_equal.
  generalize 0%nat. induction ratings as [|r l IH]; intros s; simpl.
  - reflexivity.
  - now rewrite IH.
Qed.

Lemma increasing_on_seq (g : nat -> Z) (n : nat) :
  (forall i j, (i < j)%nat -> g i < g j) ->
  forall s, StronglySorted Z.lt (map g (seq s n)).
Proof.
  intros Hg. induction n as [|n IH]; intros s; simpl.
  - constructor.
  - constructor; [apply IH|].
    rewrite Forall_forall. intros y Hy.
    apply in_map_iff in Hy. destruct Hy as (j & <- & Hj).
    apply in_seq in Hj. apply Hg. lia.
Qed.

(** ** The extremes are ratings of the list *)

Lemma fold_min_In (rest : list Z) :
  forall x, fold_left Z.min rest x = x \/ In (fold_left Z.min rest x) rest.
Proof.
  induction rest as [|y rest IH]; intros x; simpl; [now left|].
  destruct (IH (Z.min x y)) as [E|H]; [|now right; right].
  rewrite E. destruct (Z.min_spec x y) as [[_ ->]|[_ ->]];
    [now left|right; now left].
Qed.

Lemma fold_max_In (rest : list Z) :
  forall x, fold_left Z.max rest x = x \/ In (fold_left Z.max rest x) rest.
Proof.
  induction rest as [|y rest IH]; intros x; simpl; [now left|].
  destruct (IH (Z.max x y)) as [E|H]; [|now right; right].
  rewrite E. destruct (Z.max_spec x y) as [[_ ->]|[_ ->]];
    [right; now left|now left].
Qed.

Lemma py_min_In (ratings : list Z) : ratings <> [] -> In (py_min ratings) ratings.
Proof.
  destruct ratings as [|x rest]; [congruence|]. intros _. unfold py_min.
  destruct (fold_min_In rest x) as [->|H]; [now left|now right].
Qed.

Lemma py_max_In (ratings : list Z) : ratings <> [] -> In (py_max ratings) ratings.
Proof.
  destruct ratings as [|x rest]; [congruence|]. intros _. unfold py_max.
  destruct (fold_max_In rest x) as [->|H]; [now left|now right].
Qed.

(** ** The checked divisions *)

Lemma floordiv_nonzero (a b : Z) : b <> 0 -> floordiv a b = Some (a / b).
Proof.
  unfold floordiv. intros H. destruct (Z.eqb_spec b 0); [contradiction|reflexivity].
Qed.

Lemma checked_point_run (ratings : list Z) (ir : nat * Z) :
  x_divisor ratings <> 0 -> rating_range ratings <> 0 ->
  checked_point ratings ir =
  Some (point_x ratings (fst ir), point_y ratings (snd ir)).
Proof.
  intros Hx Hr. unfold checked_point.
  rewrite !floordiv_nonzero by assumption. reflexivity.
Qed.

Lemma checked_passes_run (ratings : list Z) (todo : list (nat * Z)) :
  x_divisor ratings <> 0 -> rating_range ratings <> 0 ->
  checked_passes ratings todo =
  Some (map (fun ir : nat * Z =>
               (point_x ratings (fst ir), point_y ratings (snd ir))) todo).
Proof.
  intros Hx Hr. induction todo as [|ir rest IH]; [reflexivity|].
  cbn [checked_passes map]. rewrite checked_point_run by assumption.
  rewrite IH. reflexivity.
Qed.

(** With more than one rating no pass of the loop raises. *)
Lemma checked_points_run (ratings : list Z) :
  (1 < List.length ratings)%nat -> checked_points ratings = Some (points ratings).
Proof.
  intros Hlen. unfold checked_points, points. apply checked_passes_run.
  - unfold x_divisor. lia.
  - assert (Hne : ratings <> []) by (intros ->; cbn in Hlen; lia).
    pose proof (rating_range_ge_100 ratings Hne). lia.
Qed.

Lemma checked_curve_run (ratings : list Z) :
  ratings <> [] -> checked_curve ratings = Some (curve ratings).
Proof.
  intros Hne. pose proof (rating_range_ge_100 ratings Hne).
  unfold checked_curve, curve.
  destruct (Nat.ltb_spec 1 (List.length ratings)).
  - rewrite checked_points_run by assumption. reflexivity.
  - rewrite floordiv_nonzero by lia. reflexivity.
Qed.

(** With a single rating the divisor of the x-coordinates is zero, and
    the loop, were it entered, would raise in its first pass. *)
Lemma checked_points_single (ratings : list Z) :
  List.length ratings = 1%nat ->
  x_divisor ratings = 0 /\ checked_points ratings = None.
Proof.
  destruct ratings as [|r [|r2 rest]]; cbn [List.length]; intros E;
    try discriminate E.
  split; reflexivity.
Qed.

(** No division of the renderer raises on a non-empty list, and the text
    is the one computed with the total division. *)
Lemma render_run (ratings : list Z) :
  ratings <> [] -> render ratings = Some (svg_content ratings).
Proof.
  intros Hne. unfold render. rewrite checked_curve_run by assumption.
  reflexivity.
Qed.

End ChartFacts.

(* ================================================================== *)
(** * Facts about the stages of the script *)
(* ================================================================== *)

Module ScriptFacts.
Import Clock History Json Script HistoryFacts.

(** Run the monadic plumbing, leaving the pure stages folded. *)
Ltac run :=
  cbv beta iota zeta delta
    [bind ret raise print now write_history write_graph write_readme
     history_exists read_network load_history save_history stored_history
     files history_file graph_file readme_file stdout network clock ticks
     fst snd].

Lemma filter_length_eq {A : Type} (p : A -> bool) (l : list A) :
  List.length (filter p l) = List.length l -> filter p l = l.
Proof.
  induction l as [|x l IH]; simpl; [reflexivity|].
  destruct (p x); simpl; intros H.
  - f_equal. apply IH. lia.
  - pose proof (filter_length_le p l). lia.
Qed.

(** ** The fetcher *)

(** The fetcher never raises and touches no file. *)
Lemma fetch_current_rating_frame (w : world) :
  exists v w',
    fetch_current_rating w = (inr v, w') /\ files w' = files w /\
    network w' = network w /\ clock w' = clock w /\ ticks w' = ticks w /\
    exists lines, stdout w' = (stdout w ++ lines)%list.
Proof.
  destruct w as [hf gf rf out net clk tk].
  unfold fetch_current_rating. run.
  destruct net as [text|data]; run.
  - eexists _, _. split; [reflexivity|]. run. repeat split. now eexists.
  - destruct (extract_rating data) as [e|[v|]]; run.
    + eexists _, _. split; [reflexivity|]. run. repeat split. now eexists.
    + destruct v; eexists _, _; (split; [reflexivity|]); run; repeat split;
        exists []; now rewrite app_nil_r.
    + eexists _, _. split; [reflexivity|]. run. repeat split.
      exists []. now rewrite app_nil_r.
Qed.

(** What the fetcher returns depends on the network alone. *)
Lemma fetch_current_rating_value (w1 w2 : world) :
  network w1 = network w2 ->
  fst (fetch_current_rating w1) = fst (fetch_current_rating w2).
Proof.
  destruct w1 as [hf1 gf1 rf1 out1 net1 clk1 tk1].
  destruct w2 as [hf2 gf2 rf2 out2 net2 clk2 tk2].
  cbn [network]. intros <-.
  unfold fetch_current_rating, bind, read_network. cbn [network].
  destruct net1 as [text|data]; [reflexivity|].
  destruct (extract_rating data) as [e|[v|]]; try reflexivity.
  destruct v; reflexivity.
Qed.

(** The ways to [None]: a failed request or decoding, an absent
    ['chess_rapid'] or ['last'] key, an absent ['rating'] key (the
    [KeyError] is caught), or a [null] rating. *)
Lemma fetch_current_rating_none_cases (w : world) :
  (forall text, network w = NetFailure text ->
     fst (fetch_current_rating w) = inr None) /\
  (forall fields, network w = NetData (JObj fields) ->
     lookup "chess_rapid" fields = None ->
     fst (fetch_current_rating w) = inr None) /\
  (forall fields rapid, network w = NetData (JObj fields) ->
     lookup "chess_rapid" fields = Some (JObj rapid) ->
     lookup "last" rapid = None ->
     fst (fetch_current_rating w) = inr None) /\
  (forall fields rapid last, network w = NetData (JObj fields) ->
     lookup "chess_rapid" fields = Some (JObj rapid) ->
     lookup "last" rapid = Some (JObj last) ->
     lookup "rating" last = None ->
     fst (fetch_current_rating w) = inr None).
Proof.
  destruct w as [hf gf rf out net clk tk]. cbn [network].
  unfold fetch_current_rating, bind, read_network. cbn [network].
  repeat split.
  - intros text ->. reflexivity.
  - intros fields -> H. unfold extract_rating, py_in, try_bind. now rewrite H.
  - intros fields rapid -> H1 H2.
    unfold extract_rating, py_in, py_getitem, try_bind. now rewrite H1, H2.
  - intros fields rapid last -> H1 H2 H3.
    unfold extract_rating, py_in, py_getitem, try_bind.
    now rewrite H1, H2, H3.
Qed.

(** A returned integer comes from a decoded body that holds it. *)
Lemma fetch_current_rating_some (w : world) (v : json) :
  fst (fetch_current_rating w) = inr (Some v) ->
  exists data, network w = NetData data /\ extract_rating data = inr (Some v).
Proof.
  destruct w as [hf gf rf out net clk tk]. cbn [network].
  unfold fetch_current_rating, bind, read_network. cbn [network].
  destruct net as [text|data]; [discriminate|].
  destruct (extract_rating data) as [e|[v'|]] eqn:E; try discriminate.
  destruct v'; cbn; intros H; inversion H; subst; exists data;
    (split; [reflexivity|exact E]).
Qed.

(** ** The history store *)

Lemma load_history_run (w : world) :
  load_history w = (inr (stored_history w), w).
Proof. unfold load_history, stored_history. now destruct (history_file w). Qed.

(** [cleanup_old_data] returns the stored history pruned at the cut-off of
    the clock, and leaves exactly that on disk. *)
Lemma cleanup_old_data_run (w : world) :
  exists w',
    cleanup_old_data w =
      (inr (prune (cutoff_of (clock w (ticks w))) (stored_history w)), w') /\
    stored_history w' = prune (cutoff_of (clock w (ticks w))) (stored_history w) /\
    (history_file w = None -> history_file w' = None) /\
    graph_file w' = graph_file w /\ readme_file w' = readme_file w /\
    network w' = network w /\ clock w' = clock w.
Proof.
  destruct w as [hf gf rf out net clk tk].
  unfold cleanup_old_data. run.
  destruct hf as [h|]; run.
  - destruct (Nat.eqb_spec (List.length (prune (cutoff_of (clk tk)) h))
                           (List.length h)) as [E|E]; cbn [negb]; run.
    + apply filter_length_eq in E.
      change (prune (cutoff_of (clk tk)) h = h) in E. rewrite E.
      eexists. split; [reflexivity|]. run. repeat split. discriminate.
    + eexists. split; [reflexivity|]. run. repeat split. discriminate.
  - eexists. split; [reflexivity|]. run. repeat split.
Qed.

(** ** The chart renderer *)

Section Library.

Variable lib : string -> option datetime.

Lemma parse_dates_run (h : list entry) (w : world) :
  Forall (parses lib) h -> exists ds, parse_dates lib h w = (inr ds, w).
Proof.
  induction 1 as [|e h He Hh IH]; simpl.
  - now exists [].
  - unfold parses in He.
    destruct (strptime lib (date e)) as [d|]; [|congruence].
    destruct IH as (ds & IH). unfold bind. rewrite IH. now eexists.
Qed.

Lemma parse_dates_fail (h : list entry) (w : world) :
  ~ Forall (parses lib) h ->
  exists s, parse_dates lib h w = (inl (ValueError s), w).
Proof.
  induction h as [|e h IH]; simpl; intros H.
  - exfalso. apply H. constructor.
  - destruct (strptime lib (date e)) as [d|] eqn:E.
    + destruct IH as (s & IH).
      { intros Hh. apply H. constructor; [|exact Hh].
        unfold parses. congruence. }
      unfold bind. rewrite IH. now eexists.
    + now eexists.
Qed.

Lemma create_svg_graph_run (h : list entry) (w : world) :
  h <> [] -> Forall (parses lib) h ->
  create_svg_graph lib h w =
    (inr true,
     mkWorld (history_file w) (Some (Chart.svg_content (map rating h)))
             (readme_file w) (stdout w) (network w) (clock w) (ticks w)).
Proof.
  intros Hne Hp. unfold create_svg_graph.
  rewrite ChartFacts.render_run by (destruct h; [congruence|discriminate]).
  destruct h as [|e h]; [congruence|]. cbn [List.length Nat.ltb Nat.leb].
  unfold bind. destruct (parse_dates_run _ w Hp) as (ds & ->).
  reflexivity.
Qed.

(** The renderer raises nothing but the [ValueError] of an unreadable
    date. *)
Lemma create_svg_graph_cases (h : list entry) (w : world) :
  (exists b w', create_svg_graph lib h w = (inr b, w')) \/
  (exists s, create_svg_graph lib h w = (inl (ValueError s), w)).
Proof.
  destruct h as [|e h].
  - left. now eexists _, _.
  - destruct (Forall_dec (fun x => strptime lib (date x) <> None)) with (l := e :: h)
      as [Hp|Hp].
    + intros x. destruct (strptime lib (date x)); [left; discriminate|right; tauto].
    + left. rewrite create_svg_graph_run by (assumption || discriminate).
      now eexists _, _.
    + right. destruct (parse_dates_fail (e :: h) w Hp) as (s & E).
      exists s. unfold create_svg_graph. cbn [List.length Nat.ltb Nat.leb].
      unfold bind. now rewrite E.
Qed.

End Library.

(** ** The merge *)

Lemma cutoff_le_today (t_today t_cutoff : datetime) :
  clock_sane t_today t_cutoff ->
  PyStr.le (cutoff_of t_cutoff) (strftime_ymd t_today).
Proof.
  intros (Hc1 & Hv3 & Hy3 & Hle).
  unfold PyStr.le, cutoff_of.
  rewrite ClockFacts.strftime_ymd_leb; [exact Hle| |exact Hc1].
  apply ClockFacts.minus_days_canonical; [exact Hv3|exact Hy3|lia].
Qed.

Lemma add_today_rating_fresh_pruned t1 t2 t3 h r :
  clock_sane t1 t3 ->
  In (mkEntry (strftime_ymd t1) r (isoformat t2))
     (prune (cutoff_of t3)
        (sort_by_date (upsert (strftime_ymd t1) r (isoformat t2) h))).
Proof.
  intros Hc. apply prune_In. split.
  - apply sort_by_date_In, upsert_fresh.
  - now apply cutoff_le_today.
Qed.

Lemma cap_nonempty (l : list entry) : l <> [] -> cap l <> [].
Proof.
  unfold cap. destruct (Nat.ltb_spec 30 (List.length l)) as [H|H]; [|auto].
  intros _ E. apply (f_equal (@List.length entry)) in E.
  rewrite last_n_length in E. change (List.length (@nil entry)) with 0%nat in E.
  lia.
Qed.

Lemma add_today_rating_nonempty t1 t2 t3 h r :
  clock_sane t1 t3 -> add_today_rating t1 t2 t3 h (Some r) <> [].
Proof.
  intros Hc. rewrite add_today_rating_unfold. apply cap_nonempty.
  intros E. pose proof (add_today_rating_fresh_pruned t1 t2 t3 h r Hc) as H.
  rewrite E in H. contradiction.
Qed.

Lemma add_today_rating_parses lib t1 t2 t3 h r :
  canonical t1 -> Forall (parses lib) h ->
  Forall (parses lib) (add_today_rating t1 t2 t3 h (Some r)).
Proof.
  intros Hv Hp. rewrite add_today_rating_unfold.
  rewrite Forall_forall in *. intros x Hx.
  apply cap_In, prune_In in Hx. destruct Hx as [Hx _].
  apply sort_by_date_In, upsert_In in Hx. destruct Hx as [->|Hx].
  - unfold parses. cbn [date]. now rewrite ClockFacts.strptime_written.
  - now apply Hp.
Qed.

(** A date the script wrote is read by [strptime], whatever the library
    makes of other scripts. *)
Lemma written_parses lib (e : entry) : written e -> parses lib e.
Proof.
  intros (d & Hd & E). unfold parses.
  rewrite E, ClockFacts.strptime_written by exact Hd. discriminate.
Qed.

End ScriptFacts.

(* ================================================================== *)
(** * Facts about the status document *)
(* ================================================================== *)

Module ReportFacts.
Import PyStr Report.
Local Open Scope string_scope.

Lemma append_assoc (s1 s2 s3 : string) : (s1 ++ s2) ++ s3 = s1 ++ (s2 ++ s3).
Proof. induction s1 as [|c s1 IH]; simpl; [reflexivity|now rewrite IH]. Qed.

Lemma contains_skip (a s t : string) : contains s t -> contains s (a ++ t).
Proof.
  intros (before & after & ->). exists (a ++ before), after.
  now rewrite append_assoc.
Qed.

Lemma contains_here (s rest : string) : contains s (s ++ rest).
Proof. now exists EmptyString, rest. Qed.

Lemma contains_refl (s : string) : contains s s.
Proof.
  exists EmptyString, EmptyString. cbn [append].
  induction s as [|c s IH]; [reflexivity|]. cbn [append]. now rewrite <- IH.
Qed.

Lemma contains_app_l (s a b : string) : contains s a -> contains s (a ++ b).
Proof.
  intros (before & after & ->). exists before, (after ++ b).
  now rewrite !append_assoc.
Qed.

Lemma contains_here3 (a b c rest : string) :
  contains (a ++ b ++ c) (a ++ b ++ c ++ rest).
Proof.
  replace (a ++ b ++ c ++ rest) with ((a ++ b ++ c) ++ rest)
    by now rewrite !append_assoc.
  apply contains_here.
Qed.

Lemma contains_here4 (a b c d rest : string) :
  contains (a ++ b ++ c ++ d) (a ++ b ++ c ++ d ++ rest).
Proof.
  replace (a ++ b ++ c ++ d ++ rest) with ((a ++ b ++ c ++ d) ++ rest)
    by now rewrite !append_assoc.
  apply contains_here.
Qed.

End ReportFacts.

(* ================================================================== *)
(** * The definitions at work on the sample runs *)
(* ================================================================== *)

Module Checks.
Import Clock History Json Script Samples.
Local Open Scope string_scope.

Example strftime_noon : strftime_ymd noon = "2025-03-01".
Proof. reflexivity. Qed.

Example cutoff_noon : cutoff_of noon = "2025-01-30".
Proof. reflexivity. Qed.

Example isoformat_noon : isoformat noon = "2025-03-01T12:00:00".
Proof. reflexivity. Qed.

Example isoformat_microsecond :
  isoformat (mkDatetime 2025 3 1 12 30 5 123) = "2025-03-01T12:30:05.000123".
Proof. reflexivity. Qed.

(** [strptime] accepts one-digit months and days, [strftime] never prints
    them; compared as strings, 5 January then sorts after 10 January. *)
Example strptime_one_digit :
  strptime_ymd "2025-1-5" = Some (mkDatetime 2025 1 5 0 0 0 0) /\
  String.leb "2025-01-10" "2025-1-5" = true.
Proof. split; reflexivity. Qed.

Example strptime_rejects :
  strptime_ymd "2025-02-30" = None /\ strptime_ymd "2025-13-01" = None /\
  strptime_ymd "2025-01-011" = None /\ strptime_ymd "yesterday" = None.
Proof. repeat split; reflexivity. Qed.

(** Below the year 1000 [strftime] and [isoformat] part ways, and
    [strptime], which wants four digits, no longer reads what [strftime]
    printed. *)
Example strftime_year_999 :
  strftime_ymd (mkDatetime 999 6 15 0 0 0 0) = "999-06-15" /\
  isoformat (mkDatetime 999 6 15 0 0 0 0) = "0999-06-15T00:00:00" /\
  forall lib, strptime lib "999-06-15" = None.
Proof. repeat split. Qed.

(** A division by a divisor that is zero raises. *)
Example floordiv_zero : Chart.floordiv 880 0 = None /\ Chart.floordiv 880 2 = Some 440.
Proof. split; reflexivity. Qed.

Example merge_two_days :
  add_today_rating noon noon noon two_days (Some 1510) =
  (two_days ++ [mkEntry "2025-03-01" 1510 "2025-03-01T12:00:00"])%list.
Proof. reflexivity. Qed.

Example merge_same_day :
  add_today_rating noon noon noon
    [mkEntry "2025-03-01" 1400 "2025-03-01T08:00:00";
     mkEntry "2025-01-29" 1300 "2025-01-29T08:00:00"] (Some 1510) =
  [mkEntry "2025-03-01" 1510 "2025-03-01T12:00:00"].
Proof. reflexivity. Qed.

Example points_three_days :
  Chart.points [1500; 1510; 1490] = [(60, 250); (500, 218); (940, 281)].
Proof. reflexivity. Qed.

Example extract_payload : extract_rating payload = inr (Some (JNum 1510)).
Proof. reflexivity. Qed.

Example run_online (lib : string -> option datetime) :
  stdout (snd (main lib online)) =
  [ "Fetching rating data for AnishTheAnnihilator...";
    "Current rating: 1510";
    "Existing data points: 2";
    "Total data points: 3";
    "Graph created with 3 data points!";
    "Files updated: rating_trend.svg, rating_history.json, README.md";
    "Stats: High 1510, Low 1490, Change +20" ].
Proof. vm_compute. reflexivity. Qed.

Example run_offline (lib : string -> option datetime) :
  stdout (snd (main lib offline)) =
  [ "Fetching rating data for AnishTheAnnihilator...";
    "Error fetching rating: <urlopen error timed out>";
    "Could not fetch current rating" ].
Proof. vm_compute. reflexivity. Qed.

End Checks.

(* ================================================================== *)
(** * The specification, claim by claim *)
(* ================================================================== *)

Module Claims.
Import Clock History Json Script Samples.
Import ClockFacts HistoryFacts ScriptFacts ChartFacts ReportFacts.

(** ** The history store *)

(** C1, as stated, fails: the code compares dates as strings.  The entry
    for 5 January 2025 written ["2025-1-5"], which [strptime] reads, is
    not below the cut-off string ["2025-01-30"] of 1 March 2025; the
    pruning keeps it, 55 days old. *)
Lemma add_today_rating_window_counterexample :
  In (mkEntry "2025-1-5" 1480 "2025-01-05T12:00:00")
     (add_today_rating noon noon noon one_digit (Some 1510)) /\
  (forall lib, strptime lib "2025-1-5" = Some (mkDatetime 2025 1 5 0 0 0 0)) /\
  minus_days noon 30 = mkDatetime 2025 1 30 12 0 0 0 /\
  date_leb (minus_days noon 30) (mkDatetime 2025 1 5 0 0 0 0) = false.
Proof.
  split; [|split; [|split]].
  - vm_compute. right. left. reflexivity.
  - intros lib. reflexivity.
  - reflexivity.
  - reflexivity.
Qed.

(** C1, amended.  Whatever the history and the rating, the list returned
    by [add_today_rating] has at most 30 entries and holds no entry whose
    date string is below the cut-off string (the rendering of the day 30
    days before the clock reading) in the order of strings.  For an entry
    whose date is the ['%Y-%m-%d'] rendering of a calendar day, in the
    form in which the script writes it, this is the order of the
    calendar: the entry is not older than 30 days. *)
Theorem add_today_rating_window
    (t_today t_stamp t_cutoff : datetime) (history : list entry) (r : Z) :
  let out := add_today_rating t_today t_stamp t_cutoff history (Some r) in
  Forall (fun e => PyStr.le (cutoff_of t_cutoff) (date e)) out /\
  (List.length out <= 30)%nat /\
  (valid t_cutoff -> 1001 <= year t_cutoff ->
   forall e d, In e out -> canonical d -> date e = strftime_ymd d ->
     date_leb (minus_days t_cutoff 30) d = true).
Proof.
  cbv zeta. rewrite add_today_rating_unfold.
  set (pruned := prune _ _).
  assert (Hwin : forall e, In e (cap pruned) ->
                           PyStr.le (cutoff_of t_cutoff) (date e)).
  { intros e He. apply cap_In in He. subst pruned.
    apply prune_In in He. tauto. }
  split; [|split].
  - rewrite Forall_forall. exact Hwin.
  - apply cap_length.
  - intros Hv Hy e d He Hd Ed.
    specialize (Hwin e He). unfold PyStr.le in Hwin.
    rewrite cutoff_of_eq, Ed, strftime_ymd_leb in Hwin; [exact Hwin| |exact Hd].
    apply minus_days_canonical; [exact Hv|exact Hy|lia].
Qed.

Lemma add_today_rating_window_witness :
  date_leb (minus_days noon 30) (mkDatetime 2025 2 28 0 0 0 0) = true.
Proof.
  refine (proj2 (proj2 (add_today_rating_window noon noon noon two_days 1510))
            _ _ (mkEntry "2025-02-28" 1500 "2025-02-28T12:00:00")
            (mkDatetime 2025 2 28 0 0 0 0) _ _ _).
  - unfold valid, valid_date. vm_compute. intuition discriminate.
  - vm_compute. discriminate.
  - vm_compute. tauto.
  - unfold canonical, valid, valid_date. vm_compute. intuition discriminate.
  - reflexivity.
Defined.

(** C8.  With no rating, [add_today_rating] hands the history back as it
    got it: nothing is added, updated, sorted or pruned, and the clock is
    not even read. *)
Theorem add_today_rating_none
    (t_today t_stamp t_cutoff : datetime) (history : list entry) (w : world) :
  add_today_rating t_today t_stamp t_cutoff history None = history /\
  add_today_rating_now history None w = (inr history, w).
Proof. split; reflexivity. Qed.

(** C5.  [load_history] returns the empty list when the history file is
    absent, and the decoded array when it is there; it changes nothing. *)
Theorem load_history_spec (w : world) :
  (history_file w = None -> load_history w = (inr [], w)) /\
  (forall h, history_file w = Some h -> load_history w = (inr h, w)).
Proof.
  unfold load_history. split.
  - intros ->. reflexivity.
  - intros h ->. reflexivity.
Qed.

Lemma load_history_spec_witness :
  load_history offline = (inr two_days, offline) /\
  load_history (mkWorld None None None [] (NetData payload) steady_clock 0) =
    (inr [], mkWorld None None None [] (NetData payload) steady_clock 0).
Proof.
  split.
  - apply (proj2 (load_history_spec offline)). reflexivity.
  - apply (proj1 (load_history_spec _)). reflexivity.
Defined.

(** C4, as stated, fails: the sort key is the date string.  With 5
    February written ["2025-2-5"] beside ["2025-02-10"], the list returned
    on 1 March 2025 reads 10 February, 1 March, 5 February: it is not in
    nondecreasing order of date. *)
Lemma sorted_by_date_counterexample :
  map date (add_today_rating noon noon noon mixed_forms (Some 1510)) =
    ["2025-02-10"; "2025-03-01"; "2025-2-5"]%string /\
  (forall lib,
     map (fun e => strptime lib (date e))
         (add_today_rating noon noon noon mixed_forms (Some 1510)) =
     [Some (mkDatetime 2025 2 10 0 0 0 0); Some (mkDatetime 2025 3 1 0 0 0 0);
      Some (mkDatetime 2025 2 5 0 0 0 0)]) /\
  date_leb (mkDatetime 2025 3 1 0 0 0 0) (mkDatetime 2025 2 5 0 0 0 0) = false.
Proof.
  split; [|split].
  - reflexivity.
  - intros lib. reflexivity.
  - reflexivity.
Qed.

(** C4, amended.  The history stays sorted in the order in which the code
    compares dates, the order of the date strings: the list returned by
    [add_today_rating] is in nondecreasing order of its date strings for
    every input history and rating, pruning a sorted list leaves it
    sorted, and so [cleanup_old_data] returns, and leaves on disk, a
    sorted history whenever it found one.  When every date of the input
    is written in the form in which the script writes dates, and so is
    today's, this is the order of the calendar: the dates of the returned
    list are the renderings of days in nondecreasing order, and likewise
    for [cleanup_old_data]. *)
Theorem sorted_by_date_invariant :
  (forall t_today t_stamp t_cutoff history r,
     sorted (add_today_rating t_today t_stamp t_cutoff history (Some r))) /\
  (forall cutoff_str history, sorted history -> sorted (prune cutoff_str history)) /\
  (forall w, sorted (stored_history w) ->
     exists cleaned w',
       cleanup_old_data w = (inr cleaned, w') /\
       sorted cleaned /\ stored_history w' = cleaned) /\
  (forall t_today t_stamp t_cutoff history r,
     canonical t_today -> Forall written history ->
     exists days,
       map date (add_today_rating t_today t_stamp t_cutoff history (Some r)) =
         map strftime_ymd days /\
       Forall canonical days /\ chronological days) /\
  (forall w, sorted (stored_history w) -> Forall written (stored_history w) ->
     exists cleaned w' days,
       cleanup_old_data w = (inr cleaned, w') /\ stored_history w' = cleaned /\
       map date cleaned = map strftime_ymd days /\
       Forall canonical days /\ chronological days).
Proof.
  split; [|split; [|split; [|split]]].
  - intros. rewrite add_today_rating_unfold.
    apply cap_sorted, prune_sorted, sort_by_date_sorted.
  - intros. now apply prune_sorted.
  - intros w Hs. destruct (cleanup_old_data_run w) as (w' & Hrun & Hst & _).
    eexists _, w'. split; [exact Hrun|]. split; [|exact Hst].
    now apply prune_sorted.
  - intros t_today t_stamp t_cutoff history r Ht Hw.
    apply sorted_written_chronological.
    + rewrite add_today_rating_unfold.
      apply cap_sorted, prune_sorted, sort_by_date_sorted.
    + now apply add_today_rating_written.
  - intros w Hs Hw. destruct (cleanup_old_data_run w) as (w' & Hrun & Hst & _).
    destruct (sorted_written_chronological
                (prune (cutoff_of (clock w (ticks w))) (stored_history w)))
      as (days & Hd).
    + now apply prune_sorted.
    + now apply prune_written.
    + eexists _, w', days. split; [exact Hrun|]. split; [exact Hst|exact Hd].
Qed.

Lemma sorted_by_date_invariant_witness :
  exists cleaned w',
    cleanup_old_data offline = (inr cleaned, w') /\
    sorted cleaned /\ stored_history w' = cleaned.
Proof.
  apply (proj1 (proj2 (proj2 sorted_by_date_invariant)) offline).
  unfold sorted. cbn.
  repeat constructor.
Defined.




(** ** The run as a whole *)

(** C3.  When [fetch_current_rating] returns [None], [main] prints
    "Could not fetch current rating" and returns; the history file, the
    chart file and the README are exactly what they were before the run. *)
Theorem main_skips_on_fetch_failure
    (lib : string -> option datetime) (w : world) :
  fst (fetch_current_rating w) = inr None ->
  exists w' lines,
    main lib w = (inr tt, w') /\ files w' = files w /\
    stdout w' = (stdout w ++ lines ++ ["Could not fetch current rating"%string])%list.
Proof.
  intros Hf. destruct w as [hf gf rf out net clk tk].
  unfold main. run.
  match goal with
  | |- context [fetch_current_rating ?W] =>
      destruct (fetch_current_rating_frame W)
        as (v & w2 & Hrun & Hfiles & _ & _ & _ & lines & Hout);
      pose proof (fetch_current_rating_value
                    (mkWorld hf gf rf out net clk tk) W eq_refl) as Hv
  end.
  rewrite Hrun in *. rewrite Hf in Hv. cbn [fst] in Hv.
  injection Hv as <-.
  destruct w2 as [hf2 gf2 rf2 out2 net2 clk2 tk2].
  cbv [files history_file graph_file readme_file stdout] in Hfiles, Hout.
  injection Hfiles as -> -> ->. subst out2.
  run.
  exists (mkWorld hf gf rf
            (((out ++ [("Fetching rating data for " ++ Chart.CHESS_USERNAME ++ "...")%string])
              ++ lines) ++ ["Could not fetch current rating"%string])
            net2 clk2 tk2),
         (("Fetching rating data for " ++ Chart.CHESS_USERNAME ++ "...")%string :: lines).
  split; [reflexivity|]. split; [reflexivity|].
  cbn [stdout]. now rewrite <- !app_assoc.
Qed.

Lemma main_skips_on_fetch_failure_witness :
  exists w' lines,
    main ascii_only offline = (inr tt, w') /\ files w' = files offline /\
    stdout w' = (stdout offline ++ lines ++ ["Could not fetch current rating"%string])%list.
Proof. apply (main_skips_on_fetch_failure ascii_only offline). reflexivity. Defined.

(** C10, as stated, fails: a non-empty history whose date cannot be read
    by [strptime] makes [create_svg_graph] raise [ValueError] instead of
    returning [True]; no chart is written. *)
Lemma create_svg_graph_counterexample :
  garbled <> [] /\
  forall lib,
    create_svg_graph lib garbled online = (inl (ValueError "yesterday"), online).
Proof. split; [discriminate|intros lib; reflexivity]. Qed.

Lemma last_default {A : Type} (l : list A) (d1 d2 : A) :
  l <> [] -> last l d1 = last l d2.
Proof.
  induction l as [|x l IH]; [congruence|]. intros _.
  destruct l as [|y l]; [reflexivity|].
  cbn [last] in *. apply IH. discriminate.
Qed.

(** C10, amended.  [create_svg_graph] returns [False] and writes nothing
    for the empty history, and returns [True], having written the chart,
    for every non-empty history whose dates [strptime] can read, whatever
    the library reads besides ASCII digits.  Consequently, after a
    successful fetch, with a readable history on disk and a sane clock,
    the merged history is non-empty and the run writes the history, the
    chart and the README. *)
Theorem create_svg_graph_runs (lib : string -> option datetime) :
  (forall w, create_svg_graph lib [] w = (inr false, w)) /\
  (forall history w, history <> [] -> Forall (parses lib) history ->
     exists w',
       create_svg_graph lib history w = (inr true, w') /\
       graph_file w' = Some (Chart.svg_content (map rating history)) /\
       history_file w' = history_file w /\ readme_file w' = readme_file w) /\
  (forall w r,
     fst (fetch_current_rating w) = inr (Some (JNum r)) ->
     Forall (parses lib) (stored_history w) ->
     (forall n m, clock_sane (clock w n) (clock w m)) ->
     exists merged w' stamp,
       main lib w = (inr tt, w') /\ merged <> [] /\
       history_file w' = Some merged /\
       graph_file w' = Some (Chart.svg_content (map rating merged)) /\
       forall d,
         readme_file w' =
         Some (Report.readme_content (rating (last merged d))
                                     (List.length merged) stamp)).
Proof.
  split; [|split].
  - reflexivity.
  - intros history w Hne Hp. rewrite create_svg_graph_run by assumption.
    eexists. split; [reflexivity|]. repeat split.
  - intros w r Hf Hp Hc. destruct w as [hf gf rf out net clk tk].
    destruct (fetch_current_rating_some _ _ Hf) as (data & Hnet & Hex).
    cbn [network] in Hnet. subst net. cbn [clock] in Hc.
    unfold main, fetch_current_rating. run. rewrite Hex. run.
    match goal with
    | |- context [cleanup_old_data ?W] =>
        destruct (cleanup_old_data_run W)
          as (w3 & Hrun & _ & _ & Hgf & Hrf & Hnet & Hclk)
    end.
    rewrite Hrun. clear Hrun.
    destruct w3 as [hf3 gf3 rf3 out3 net3 clk3 tk3].
    cbv [stored_history history_file graph_file readme_file network clock ticks]
      in Hgf, Hrf, Hnet, Hclk, Hp |- *.
    subst gf3 rf3 net3 clk3.
    set (stored := match hf with Some h => h | None => [] end) in *.
    set (cleaned := prune (cutoff_of (clk tk)) stored).
    unfold add_today_rating_now. run.
    set (merged := add_today_rating (clk tk3) (clk (S tk3)) (clk (S (S tk3)))
                     cleaned (Some r)).
    assert (Hne : merged <> []).
    { apply add_today_rating_nonempty. apply Hc. }
    assert (Hpm : Forall (parses lib) merged).
    { apply add_today_rating_parses.
      - destruct (Hc tk3 tk3) as (Hv & _). exact Hv.
      - subst cleaned. unfold prune. rewrite Forall_forall in *.
        intros x Hx. apply filter_In in Hx. now apply Hp. }
    rewrite (create_svg_graph_run lib merged _ Hne Hpm). run.
    unfold update_readme.
    destruct merged as [|first rest] eqn:Em; [congruence|]. run.
    destruct (1 <? List.length (first :: rest))%nat; run.
    + eexists _, _, _. split; [reflexivity|]. run.
      split; [exact Hne|]. split; [reflexivity|]. split; [reflexivity|].
      intros d. now rewrite (last_default _ d first Hne).
    + eexists _, _, _. split; [reflexivity|]. run.
      split; [exact Hne|]. split; [reflexivity|]. split; [reflexivity|].
      intros d. now rewrite (last_default _ d first Hne).
Qed.

Lemma create_svg_graph_runs_witness :
  exists merged w' stamp,
    main ascii_only online = (inr tt, w') /\ merged <> [] /\
    history_file w' = Some merged /\
    graph_file w' = Some (Chart.svg_content (map rating merged)) /\
    forall d,
      readme_file w' =
      Some (Report.readme_content (rating (last merged d))
                                  (List.length merged) stamp).
Proof.
  apply (proj2 (proj2 (create_svg_graph_runs ascii_only)) online 1510).
  - reflexivity.
  - repeat constructor; unfold parses; vm_compute; discriminate.
  - intros n m. unfold clock_sane, canonical, valid, valid_date.
    vm_compute. intuition discriminate.
Defined.

(** ** The chart *)

(** C9.  The coordinate computations of [create_svg_graph] never divide
    by zero.  For every non-empty history [rating_range] is at least 100.
    The divisor [len(dates) - 1] of the x-coordinates is positive when the
    history has more than one entry, and the loop that divides by it then
    runs through; for a single entry that divisor is zero and the loop
    would raise, but the guard [len(ratings) > 1] keeps the code out of
    it.  So, with every division by a computed divisor checked, the
    renderer yields the text of the chart, and [create_svg_graph] does not
    raise [ZeroDivisionError], whatever the history and the state of the
    world. *)
Theorem chart_divisors_positive (history : list entry) :
  history <> [] ->
  let ratings := map rating history in
  Chart.rating_range ratings =
    (Chart.py_max ratings + 50) - (Chart.py_min ratings - 50) /\
  100 <= Chart.rating_range ratings /\
  ((1 < List.length ratings)%nat ->
     0 < Chart.x_divisor ratings /\
     Chart.checked_points ratings = Some (Chart.points ratings)) /\
  (List.length ratings = 1%nat ->
     Chart.x_divisor ratings = 0 /\ Chart.checked_points ratings = None) /\
  Chart.checked_curve ratings = Some (Chart.curve ratings) /\
  Chart.render ratings = Some (Chart.svg_content ratings) /\
  (forall lib w, fst (create_svg_graph lib history w) <> inl ZeroDivisionError).
Proof.
  intros Hne. cbv zeta.
  assert (Hr : map rating history <> []).
  { destruct history; [congruence|discriminate]. }
  split; [reflexivity|]. split; [now apply rating_range_ge_100|].
  split; [|split; [|split; [|split]]].
  - intros Hlen. split; [unfold Chart.x_divisor; lia|].
    now apply checked_points_run.
  - apply checked_points_single.
  - now apply checked_curve_run.
  - now apply render_run.
  - intros lib w.
    destruct (create_svg_graph_cases lib history w)
      as [(b & w' & ->)|(s & ->)]; discriminate.
Qed.

Lemma chart_divisors_positive_witness :
  100 <= Chart.rating_range (map rating two_days) /\
  0 < Chart.x_divisor (map rating two_days) /\
  Chart.render (map rating two_days) =
    Some (Chart.svg_content (map rating two_days)) /\
  Chart.render (map rating one_digit) =
    Some (Chart.svg_content (map rating one_digit)).
Proof.
  destruct (chart_divisors_positive two_days ltac:(discriminate))
    as (_ & H1 & H2 & _ & _ & H3 & _).
  destruct (chart_divisors_positive one_digit ltac:(discriminate))
    as (_ & _ & _ & _ & _ & H4 & _).
  split; [exact H1|]. split; [|split; [exact H3|exact H4]].
  apply H2. cbn. lia.
Defined.

(** The points of the curve are in the text of the chart, as the value
    of the [points] attribute of the line drawn through them. *)
Lemma chart_polyline (ratings : list Z) :
  (1 < List.length ratings)%nat ->
  PyStr.contains
    (PyStr.quoted
       (PyStr.join " " (map Chart.point_text (Chart.points ratings))))
    (Chart.svg_content ratings).
Proof.
  intros Hlen. unfold Chart.svg_content, Chart.curve.
  apply Nat.ltb_lt in Hlen. rewrite Hlen.
  do 2 apply contains_skip. apply contains_app_l.
  unfold Chart.curve_text. cbv zeta.
  do 5 apply contains_skip. apply contains_app_l.
  unfold Chart.attrs at 1. unfold PyStr.join at 1.
  cbn [map String.concat fst snd].
  apply contains_app_l. do 2 apply contains_skip. apply contains_refl.
Qed.

(** C6.  For a history of 2 to 30 entries the chart has one point for
    each entry.  The x-coordinate of the [i]-th point is
    [60 + (i * 880) // (n - 1)], and the x-coordinates are strictly
    increasing in list order.  The y-coordinate of a rating [r] is
    [60 + ((hi - r) * 380) // (hi - lo)], where [lo = min(ratings) - 50]
    and [hi = max(ratings) + 50] and the minimum and maximum are ratings
    of the history that bound all the others: the linear map that sends
    [hi] to 60 and [lo] to 440, rounded down.  Every y-coordinate lies in
    the chart area [margin, height - margin] = [60, 440].  These are the
    points that [create_svg_graph] writes to the chart file. *)
Theorem chart_coordinates (history : list entry) :
  (2 <= List.length history <= 30)%nat ->
  let ratings := map rating history in
  let n := List.length history in
  let lo := Chart.py_min ratings - 50 in
  let hi := Chart.py_max ratings + 50 in
  List.length (Chart.points ratings) = n /\
  (In (Chart.py_min ratings) ratings /\ In (Chart.py_max ratings) ratings /\
   forall r, In r ratings -> Chart.py_min ratings <= r <= Chart.py_max ratings) /\
  Chart.xs ratings =
    map (fun i => 60 + (Z.of_nat i * 880) / (Z.of_nat n - 1)) (seq 0 n) /\
  StronglySorted Z.lt (Chart.xs ratings) /\
  Chart.ys ratings = map (fun r => 60 + ((hi - r) * 380) / (hi - lo)) ratings /\
  (60 + ((hi - hi) * 380) / (hi - lo) = 60 /\
   60 + ((hi - lo) * 380) / (hi - lo) = 440) /\
  Forall (fun y => Chart.margin <= y <= Chart.height - Chart.margin)
         (Chart.ys ratings) /\
  (Chart.margin = 60 /\ Chart.height - Chart.margin = 440) /\
  PyStr.contains
    (PyStr.quoted
       (PyStr.join " " (map Chart.point_text (Chart.points ratings))))
    (Chart.svg_content ratings) /\
  (forall lib w, Forall (parses lib) history ->
     exists w',
       create_svg_graph lib history w = (inr true, w') /\
       graph_file w' = Some (Chart.svg_content ratings)).
Proof.
  intros Hlen. cbv zeta.
  assert (Hne : history <> []) by (intros ->; cbn in Hlen; lia).
  assert (Hr : map rating history <> []).
  { destruct history; [congruence|discriminate]. }
  assert (Hn : List.length (map rating history) = List.length history)
    by apply length_map.
  pose proof (rating_range_ge_100 _ Hr) as Hrange.
  unfold Chart.rating_range, Chart.max_rating, Chart.min_rating in Hrange.
  split; [|split; [|split; [|split; [|split; [|split; [|split; [|split; [|split]]]]]]]].
  - unfold Chart.points.
    rewrite length_map, length_combine, length_seq, length_map. lia.
  - split; [now apply py_min_In|]. split; [now apply py_max_In|].
    intros r Hin. split; [now apply py_min_le|now apply py_max_ge].
  - rewrite xs_seq, Hn. apply map_ext. intros i.
    unfold Chart.point_x, Chart.x_divisor. now rewrite Hn.
  - rewrite xs_seq. apply increasing_on_seq.
    intros i j Hij. apply point_x_lt; [|exact Hij].
    unfold Chart.x_divisor. rewrite length_map. lia.
  - rewrite ys_map. apply map_ext. intros r. reflexivity.
  - split.
    + rewrite Z.sub_diag. reflexivity.
    + rewrite Z.mul_comm. rewrite Z.div_mul by lia. reflexivity.
  - rewrite ys_map, Forall_forall. intros y Hy.
    apply in_map_iff in Hy. destruct Hy as (r & <- & Hin).
    apply (point_y_bounds _ _ Hin).
  - split; reflexivity.
  - apply chart_polyline. rewrite Hn. lia.
  - intros lib w Hp. rewrite create_svg_graph_run by assumption.
    eexists. split; reflexivity.
Qed.

Lemma chart_coordinates_witness :
  Chart.xs (map rating two_days) = [60; 940] /\
  Chart.ys (map rating two_days) = [267; 232] /\
  StronglySorted Z.lt (Chart.xs (map rating two_days)) /\
  Forall (fun y => 60 <= y <= 440) (Chart.ys (map rating two_days)).
Proof.
  destruct (chart_coordinates two_days) as (_ & _ & Hx & Hs & Hy & _ & Hb & _).
  - cbn. lia.
  - split; [exact Hx|]. split; [exact Hy|]. split; [exact Hs|exact Hb].
Defined.

(** ** The status document *)

(** C7.  For every non-empty history the README written by
    [update_readme] gives the rating of the last history entry as the
    current rating and the length of the history as the number of days
    tracked, and refers to the chart by its relative path
    [rating_trend.svg]; the other two files are left alone. *)
Theorem update_readme_content (rating_arg : Z) (history : list entry) (w : world) :
  history <> [] ->
  exists text w',
    update_readme rating_arg history w = (inr tt, w') /\
    readme_file w' = Some text /\
    history_file w' = history_file w /\ graph_file w' = graph_file w /\
    (forall d,
       PyStr.contains
         ("## Rapid Rating: " ++ PyStr.str (rating (last history d)) ++ PyStr.nl)%string
         text) /\
    PyStr.contains
      ("**Days Tracked:** " ++ PyStr.str (Z.of_nat (List.length history)) ++ "  "
       ++ PyStr.nl)%string text /\
    PyStr.contains "![Rating Trend](rating_trend.svg)"%string text.
Proof.
  intros Hne. destruct w as [hf gf rf out net clk tk].
  unfold update_readme. destruct history as [|first rest] eqn:Eh; [congruence|].
  run. eexists _, _. split; [reflexivity|]. run.
  split; [reflexivity|]. split; [reflexivity|]. split; [reflexivity|].
  unfold Report.readme_content, Report.GRAPH_FILE.
  split; [|split].
  - intros d. rewrite (last_default _ d first Hne).
    do 3 apply contains_skip. apply contains_here3.
  - do 12 apply contains_skip. apply contains_here4.
  - do 7 apply contains_skip.
    apply (contains_here3 "![Rating Trend](" "rating_trend.svg" ")").
Qed.

Lemma update_readme_content_witness :
  exists text w',
    update_readme 1500 two_days offline = (inr tt, w') /\
    readme_file w' = Some text /\
    PyStr.contains "## Rapid Rating: 1500"%string text /\
    PyStr.contains "**Days Tracked:** 2"%string text /\
    PyStr.contains "![Rating Trend](rating_trend.svg)"%string text.
Proof.
  destruct (update_readme_content 1500 two_days offline ltac:(discriminate))
    as (text & w' & Hrun & Hfile & _ & _ & H1 & H2 & H3).
  exists text, w'. split; [exact Hrun|]. split; [exact Hfile|].
  split; [|split; [|exact H3]].
  - destruct (H1 (mkEntry EmptyString 0 EmptyString)) as (a & b & E).
    exists a, (PyStr.nl ++ b)%string. exact E.
  - destruct H2 as (a & b & E).
    exists a, ("  " ++ PyStr.nl ++ b)%string. exact E.
Defined.

End Claims.

(* ================================================================== *)
(** * More facts about the merge *)
(* ================================================================== *)

Module MergeFacts.
Import Clock History HistoryFacts ScriptFacts Parts.

Lemma insert_below_all (e : entry) (l : list entry) :
  Forall (fun y => PyStr.le (date e) (date y)) l -> insert_by_date e l = e :: l.
Proof.
  destruct l as [|y l]; [reflexivity|]. intros H.
  apply Forall_inv in H. unfold PyStr.le in H. cbn [insert_by_date].
  now rewrite H.
Qed.

(** Sorting a sorted history changes nothing. *)
Lemma sort_by_date_fixed (l : list entry) : sorted l -> sort_by_date l = l.
Proof.
  unfold sorted. induction 1 as [|x l Hl IH Hx]; [reflexivity|].
  cbn [sort_by_date fold_right]. fold (sort_by_date l). rewrite IH.
  now apply insert_below_all.
Qed.

Lemma prune_all (cutoff : string) (l : list entry) :
  Forall (fun e => PyStr.le cutoff (date e)) l -> prune cutoff l = l.
Proof.
  unfold prune. induction 1 as [|x l Hx Hl IH]; [reflexivity|].
  cbn [filter]. unfold PyStr.le in Hx. now rewrite Hx, IH.
Qed.

Lemma prune_window (cutoff : string) (l : list entry) :
  Forall (fun e => PyStr.le cutoff (date e)) (prune cutoff l).
Proof. rewrite Forall_forall. intros e He. apply prune_In in He. tauto. Qed.

(** Pruning at an earlier cut-off first makes no difference. *)
Lemma prune_prune (c1 c2 : string) (l : list entry) :
  PyStr.le c1 c2 -> prune c2 (prune c1 l) = prune c2 l.
Proof.
  intros Hc. unfold prune. induction l as [|x l IH]; [reflexivity|].
  cbn [filter].
  destruct (String.leb c1 (date x)) eqn:E1; cbn [filter]; rewrite IH;
    [reflexivity|].
  destruct (String.leb c2 (date x)) eqn:E2; [|reflexivity].
  pose proof (PyStrFacts.le_trans _ _ _ Hc E2) as H. unfold PyStr.le in H.
  congruence.
Qed.

Lemma cap_small (l : list entry) : (List.length l <= 30)%nat -> cap l = l.
Proof.
  intros H. unfold cap. destruct (Nat.ltb_spec 30 (List.length l)); [lia|reflexivity].
Qed.

(** The cap of a list keeps its last entry, in last place. *)
Lemma cap_snoc (l1 : list entry) (x : entry) :
  exists l, cap (l1 ++ [x]) = l ++ [x].
Proof.
  unfold cap. destruct (30 <? List.length (l1 ++ [x]))%nat; [|now exists l1].
  unfold last_n. rewrite length_app. cbn [List.length].
  rewrite skipn_app.
  replace (List.length l1 + 1 - 30 - List.length l1)%nat with 0%nat by lia.
  now eexists.
Qed.

Section Upsert.
Variables (today : string) (r : Z) (stamp : string).

Lemma update_today_at (l1 l2 : list entry) (e : entry) :
  Forall (fun x => date x <> today) l1 -> date e = today ->
  update_today today r stamp (l1 ++ e :: l2) =
  Some (l1 ++ mkEntry today r stamp :: l2).
Proof.
  intros H He. induction H as [|x l1 Hx Hl IH]; cbn [app update_today].
  - apply String.eqb_eq in He. rewrite He.
    apply String.eqb_eq in He. now rewrite He.
  - apply String.eqb_neq in Hx. now rewrite Hx, IH.
Qed.

Lemma upsert_present (l1 l2 : list entry) (e : entry) :
  Forall (fun x => date x <> today) l1 -> date e = today ->
  upsert today r stamp (l1 ++ e :: l2) = l1 ++ mkEntry today r stamp :: l2.
Proof. intros H He. unfold upsert. now rewrite update_today_at. Qed.

Lemma upsert_absent (h : list entry) :
  Forall (fun x => date x <> today) h ->
  upsert today r stamp h = h ++ [mkEntry today r stamp].
Proof.
  intros H. apply update_today_none with (r := r) (stamp := stamp) in H.
  unfold upsert. now rewrite H.
Qed.

(** The upsert commutes with any filter that keeps today's entries. *)
Lemma update_today_filter (p : entry -> bool) (h : list entry) :
  (forall e, date e = today -> p e = true) ->
  update_today today r stamp (filter p h) =
  option_map (filter p) (update_today today r stamp h).
Proof.
  intros Hp. induction h as [|x h IH]; [reflexivity|].
  cbn [filter update_today].
  destruct (String.eqb_spec (date x) today) as [E|E].
  - rewrite (Hp x E). cbn [update_today option_map filter].
    apply String.eqb_eq in E. rewrite E. apply String.eqb_eq in E.
    now rewrite (Hp (mkEntry (date x) r stamp) E).
  - destruct (p x) eqn:Px; cbn [update_today].
    + apply String.eqb_neq in E. rewrite E, IH.
      destruct (update_today today r stamp h); cbn [option_map filter];
        [now rewrite Px|reflexivity].
    + rewrite IH.
      destruct (update_today today r stamp h); cbn [option_map filter];
        [now rewrite Px|reflexivity].
Qed.

Lemma upsert_filter (p : entry -> bool) (h : list entry) :
  (forall e, date e = today -> p e = true) ->
  upsert today r stamp (filter p h) = filter p (upsert today r stamp h).
Proof.
  intros Hp. unfold upsert. rewrite update_today_filter by exact Hp.
  destruct (update_today today r stamp h); cbn [option_map]; [reflexivity|].
  rewrite filter_app. cbn [filter]. now rewrite (Hp (mkEntry today r stamp) eq_refl).
Qed.

End Upsert.

Lemma sorted_app (l1 l2 : list entry) :
  sorted l1 -> sorted l2 ->
  (forall a b, In a l1 -> In b l2 -> PyStr.le (date a) (date b)) ->
  sorted (l1 ++ l2).
Proof.
  unfold sorted. induction 1 as [|x l1 Hl IH Hx]; intros H2 H; [exact H2|].
  cbn [app]. constructor.
  - apply IH; [exact H2|]. intros a b Ha Hb. apply H; [now right|exact Hb].
  - apply Forall_app. split; [exact Hx|].
    rewrite Forall_forall. intros b Hb. apply H; [now left|exact Hb].
Qed.

Lemma sorted_snoc (l : list entry) (x : entry) :
  sorted l -> Forall (fun e => PyStr.le (date e) (date x)) l -> sorted (l ++ [x]).
Proof.
  intros Hs Hx. apply sorted_app; [exact Hs|repeat constructor|].
  rewrite Forall_forall in Hx. intros a b Ha [<-|[]]. now apply Hx.
Qed.

(** Inserting into a sorted history commutes with filtering. *)
Lemma insert_by_date_filter (p : entry -> bool) (e : entry) (l : list entry) :
  sorted l ->
  filter p (insert_by_date e l) =
  if p e then insert_by_date e (filter p l) else filter p l.
Proof.
  unfold sorted. induction 1 as [|y l Hl IH Hy].
  - cbn. now destruct (p e).
  - cbn [insert_by_date].
    destruct (String.leb (date e) (date y)) eqn:E.
    + cbn [filter]. destruct (p e); [|reflexivity].
      rewrite insert_below_all; [reflexivity|].
      rewrite Forall_forall in *. intros z Hz.
      change (In z (filter p (y :: l))) in Hz. apply filter_In in Hz.
      destruct Hz as [[<-|Hz] _]; [exact E|].
      eapply PyStrFacts.le_trans; [exact E|now apply Hy].
    + cbn [filter]. rewrite IH.
      destruct (p y), (p e); cbn [insert_by_date]; try reflexivity.
      now rewrite E.
Qed.

Lemma sort_by_date_filter (p : entry -> bool) (l : list entry) :
  sort_by_date (filter p l) = filter p (sort_by_date l).
Proof.
  induction l as [|x l IH]; [reflexivity|].
  cbn [filter sort_by_date fold_right]. fold (sort_by_date l).
  rewrite insert_by_date_filter by apply sort_by_date_sorted.
  destruct (p x); [|exact IH].
  cbn [sort_by_date fold_right]. fold (sort_by_date (filter p l)).
  now rewrite IH.
Qed.

Lemma upsert_bound today r stamp (h : list entry) :
  (List.length (upsert today r stamp h) <= S (List.length h))%nat.
Proof.
  rewrite upsert_length.
  destruct (existsb (fun e => (date e =? today)%string) h); lia.
Qed.

Lemma merge_bound t1 t2 t3 (h : list entry) (r : Z) :
  (List.length (prune (cutoff_of t3)
     (sort_by_date (upsert (strftime_ymd t1) r (isoformat t2) h)))
   <= S (List.length h))%nat.
Proof.
  etransitivity; [apply prune_length|].
  rewrite sort_by_date_length. apply upsert_bound.
Qed.

End MergeFacts.

(* ================================================================== *)
(** * Further behaviour of the history store *)
(* ================================================================== *)

Module StoreBehaviour.
Import Clock History Json Script Samples Scenarios Parts.
Import ClockFacts HistoryFacts ScriptFacts MergeFacts.

(** X1.  [add_today_rating] invents nothing: every entry it returns is
    today's new entry or an entry of the input, and the result is at most
    one entry longer than the input. *)
Theorem add_today_rating_no_invention
    (t_today t_stamp t_cutoff : datetime) (history : list entry) (r : Z) :
  let out := add_today_rating t_today t_stamp t_cutoff history (Some r) in
  (forall e, In e out -> e = fresh_entry t_today t_stamp r \/ In e history) /\
  (List.length out <= S (List.length history))%nat.
Proof.
  cbv zeta. rewrite add_today_rating_unfold. split.
  - intros e He. apply cap_In, prune_In in He. destruct He as [He _].
    apply (proj1 (sort_by_date_In _ _)) in He. now apply upsert_In in He.
  - etransitivity; [apply cap_length_le|apply merge_bound].
Qed.

(** X2.  Below the cap nothing but age removes an entry: when the input
    has fewer than 30 entries and the clock is sane, the result is the
    sorted merge pruned at the cut-off, it holds today's entry, and it
    holds every input entry for another day that is not older than the
    cut-off. *)
Theorem add_today_rating_below_cap
    (t_today t_stamp t_cutoff : datetime) (history : list entry) (r : Z) :
  clock_sane t_today t_cutoff ->
  (List.length history < 30)%nat ->
  let today := strftime_ymd t_today in
  let out := add_today_rating t_today t_stamp t_cutoff history (Some r) in
  out = prune (cutoff_of t_cutoff)
          (sort_by_date (upsert today r (isoformat t_stamp) history)) /\
  In (fresh_entry t_today t_stamp r) out /\
  (forall e, In e history -> date e <> today ->
     PyStr.le (cutoff_of t_cutoff) (date e) -> In e out).
Proof.
  intros Hc Hlen. cbv zeta. rewrite add_today_rating_unfold.
  rewrite cap_small by (pose proof (merge_bound t_today t_stamp t_cutoff history r); lia).
  split; [reflexivity|]. split.
  - now apply add_today_rating_fresh_pruned.
  - intros e He Hd Hcut. apply prune_In. split; [|exact Hcut].
    apply sort_by_date_In. now apply upsert_keeps.
Qed.

Lemma add_today_rating_below_cap_witness :
  In (fresh_entry noon noon 1510)
     (add_today_rating noon noon noon two_days (Some 1510)).
Proof.
  refine (proj1 (proj2 (add_today_rating_below_cap noon noon noon two_days 1510 _ _))).
  - unfold clock_sane, canonical, valid, valid_date. vm_compute.
    intuition discriminate.
  - cbn. lia.
Defined.

(** X3.  The daily step.  On a history that is sorted, lies within the
    window and ends before today, [add_today_rating] appends today's entry
    and then keeps the last 30: with fewer than 30 entries the result is
    the input followed by today's entry, with exactly 30 it is the input
    without its oldest entry followed by today's entry. *)
Theorem add_today_rating_daily_step
    (t_today t_stamp t_cutoff : datetime) (history : list entry) (r : Z) :
  sorted history ->
  Forall (fun e => PyStr.le (date e) (strftime_ymd t_today) /\
                   date e <> strftime_ymd t_today) history ->
  Forall (fun e => PyStr.le (cutoff_of t_cutoff) (date e)) history ->
  clock_sane t_today t_cutoff ->
  let fresh := fresh_entry t_today t_stamp r in
  let out := add_today_rating t_today t_stamp t_cutoff history (Some r) in
  out = cap (history ++ [fresh]) /\
  ((List.length history < 30)%nat -> out = history ++ [fresh]) /\
  (List.length history = 30%nat -> out = tl history ++ [fresh]).
Proof.
  intros Hs Hbefore Hwin Hc. cbv zeta. rewrite add_today_rating_unfold.
  assert (Hup : upsert (strftime_ymd t_today) r (isoformat t_stamp) history
                = history ++ [fresh_entry t_today t_stamp r]).
  { apply upsert_absent. eapply Forall_impl; [|exact Hbefore]. cbv beta. tauto. }
  rewrite Hup.
  rewrite sort_by_date_fixed.
  2:{ apply sorted_snoc; [exact Hs|].
      eapply Forall_impl; [|exact Hbefore]. cbv beta. unfold fresh_entry. cbn [date]. tauto. }
  rewrite prune_all.
  2:{ apply Forall_app. split; [exact Hwin|]. constructor; [|constructor].
      unfold fresh_entry. cbn [date]. now apply cutoff_le_today. }
  split; [reflexivity|]. split.
  - intros Hlen. apply cap_small. rewrite length_app. cbn [List.length]. lia.
  - intros Hlen. unfold cap, last_n. rewrite length_app, Hlen. cbn [List.length].
    destruct history as [|x rest]; [discriminate|]. reflexivity.
Qed.

Lemma add_today_rating_daily_step_witness :
  add_today_rating noon noon noon full_window (Some 1510) =
  tl full_window ++ [fresh_entry noon noon 1510].
Proof.
  refine (proj2 (proj2 (add_today_rating_daily_step noon noon noon full_window 1510 _ _ _ _)) _).
  - replace full_window with (sort_by_date full_window) by (vm_compute; reflexivity).
    apply sort_by_date_sorted.
  - unfold full_window.
    repeat (constructor; [split; [reflexivity|discriminate]|]). constructor.
  - unfold full_window. repeat (constructor; [reflexivity|]). constructor.
  - unfold clock_sane, canonical, valid, valid_date. vm_compute.
    intuition discriminate.
  - reflexivity.
Defined.

(** X4.  Running again on the same day only overwrites today's rating:
    for a history with distinct dates, none after today, the first result
    ends with today's entry, and merging a second rating into that result
    on the same day replaces just that last entry. *)
Theorem add_today_rating_rerun
    (t_today t_stamp t_cutoff t_today' t_stamp' t_cutoff' : datetime)
    (history : list entry) (r1 r2 : Z) :
  NoDup (map date history) ->
  Forall (fun e => PyStr.le (date e) (strftime_ymd t_today)) history ->
  clock_sane t_today t_cutoff ->
  strftime_ymd t_today' = strftime_ymd t_today ->
  cutoff_of t_cutoff' = cutoff_of t_cutoff ->
  exists earlier,
    add_today_rating t_today t_stamp t_cutoff history (Some r1) =
      earlier ++ [fresh_entry t_today t_stamp r1] /\
    add_today_rating t_today' t_stamp' t_cutoff'
      (earlier ++ [fresh_entry t_today t_stamp r1]) (Some r2) =
      earlier ++ [fresh_entry t_today' t_stamp' r2].
Proof.
  intros Hnd Hle Hc Etoday Ecut.
  set (today := strftime_ymd t_today) in *.
  set (fresh1 := fresh_entry t_today t_stamp r1).
  set (pruned := prune (cutoff_of t_cutoff)
                   (sort_by_date (upsert today r1 (isoformat t_stamp) history))).
  assert (Hsorted : sorted pruned) by apply prune_sorted, sort_by_date_sorted.
  assert (Hfresh : In fresh1 pruned) by now apply add_today_rating_fresh_pruned.
  assert (Hdistinct : NoDup (map date pruned)).
  { apply prune_dates_distinct.
    apply (Permutation_NoDup (l := map date (upsert today r1 (isoformat t_stamp) history))).
    - apply Permutation_map, sort_by_date_perm.
    - now apply upsert_NoDup. }
  assert (Hmax : Forall (fun e => PyStr.le (date e) (date fresh1)) pruned).
  { rewrite Forall_forall. intros e He. apply prune_In in He. destruct He as [He _].
    apply (proj1 (sort_by_date_In _ _)) in He. apply upsert_In in He.
    destruct He as [->|He]; [apply PyStrFacts.le_refl|].
    rewrite Forall_forall in Hle. now apply Hle. }
  destruct (sorted_max_last fresh1 pruned Hsorted Hdistinct Hfresh Hmax) as (l1 & E1).
  destruct (cap_snoc l1 fresh1) as (earlier & Ecap).
  assert (Eout : add_today_rating t_today t_stamp t_cutoff history (Some r1)
                 = earlier ++ [fresh1]).
  { rewrite add_today_rating_unfold. fold today. fold pruned. now rewrite E1. }
  exists earlier. split; [exact Eout|].
  assert (Hs1 : sorted (earlier ++ [fresh1])).
  { rewrite <- Ecap, <- E1. now apply cap_sorted. }
  assert (Hd1 : NoDup (map date (earlier ++ [fresh1]))).
  { rewrite <- Ecap, <- E1. now apply cap_dates_distinct. }
  assert (Hw1 : Forall (fun e => PyStr.le (cutoff_of t_cutoff) (date e))
                       (earlier ++ [fresh1])).
  { rewrite <- Eout, add_today_rating_unfold, Forall_forall. intros e He.
    apply cap_In, prune_In in He. tauto. }
  assert (Hlen : (List.length (earlier ++ [fresh1]) <= 30)%nat).
  { rewrite <- Eout, add_today_rating_unfold. apply cap_length. }
  rewrite add_today_rating_unfold, Etoday, Ecut.
  rewrite upsert_present.
  2:{ rewrite map_app in Hd1. cbn [map] in Hd1. apply NoDup_remove_2 in Hd1.
      rewrite app_nil_r in Hd1. rewrite Forall_forall. intros x Hx Ex.
      apply Hd1. apply in_map_iff. exists x. split; [|exact Hx].
      now rewrite Ex. }
  2:{ reflexivity. }
  apply sorted_app_inv in Hs1. destruct Hs1 as (Hse & _ & Hlast).
  apply Forall_app in Hw1. destruct Hw1 as (Hwe & Hwf).
  assert (Enew : mkEntry today r2 (isoformat t_stamp') = fresh_entry t_today' t_stamp' r2).
  { unfold fresh_entry. now rewrite Etoday. }
  rewrite Enew.
  rewrite sort_by_date_fixed.
  2:{ apply sorted_snoc; [exact Hse|]. rewrite Forall_forall. intros e He.
      unfold fresh_entry. cbn [date]. rewrite Etoday.
      apply (Hlast e fresh1 He). now left. }
  rewrite prune_all.
  2:{ apply Forall_app. split; [exact Hwe|]. constructor; [|constructor].
      apply Forall_inv in Hwf. unfold fresh_entry. cbn [date]. now rewrite Etoday. }
  apply cap_small. rewrite length_app in *. exact Hlen.
Qed.

Lemma add_today_rating_rerun_witness :
  exists earlier,
    add_today_rating noon noon noon two_days (Some 1510) =
      earlier ++ [fresh_entry noon noon 1510] /\
    add_today_rating noon noon noon
      (earlier ++ [fresh_entry noon noon 1510]) (Some 1520) =
      earlier ++ [fresh_entry noon noon 1520].
Proof.
  apply (add_today_rating_rerun noon noon noon noon noon noon two_days 1510 1520).
  - cbn [map date two_days].
    repeat (constructor; [cbn [In]; intuition discriminate|]). constructor.
  - repeat constructor.
  - unfold clock_sane, canonical, valid, valid_date. vm_compute.
    intuition discriminate.
  - reflexivity.
  - reflexivity.
Defined.

(** X5.  The sort step is a stable sort by date: it returns a permutation
    of its input in nondecreasing order of date, entries with the same
    date keep their relative order, and a history that is already sorted
    is returned as it is. *)
Theorem sort_by_date_stable_sort (history : list entry) :
  Permutation history (sort_by_date history) /\
  sorted (sort_by_date history) /\
  (forall day, filter (fun e => (date e =? day)%string) (sort_by_date history)
               = filter (fun e => (date e =? day)%string) history) /\
  (sorted history -> sort_by_date history = history).
Proof.
  split; [apply sort_by_date_perm|].
  split; [apply sort_by_date_sorted|].
  split; [intros day; apply sort_by_date_stable|apply sort_by_date_fixed].
Qed.

(** X6.  Pruning first is harmless: pruning the history at a cut-off that
    is neither after today nor after the merge's own cut-off, as
    [cleanup_old_data] does in [main], does not change what
    [add_today_rating] returns. *)
Theorem add_today_rating_after_prune
    (t_today t_stamp t_cutoff : datetime) (earlier_cutoff : string)
    (history : list entry) (r : Z) :
  PyStr.le earlier_cutoff (strftime_ymd t_today) ->
  PyStr.le earlier_cutoff (cutoff_of t_cutoff) ->
  add_today_rating t_today t_stamp t_cutoff (prune earlier_cutoff history) (Some r) =
  add_today_rating t_today t_stamp t_cutoff history (Some r).
Proof.
  intros Htoday Hcut. rewrite !add_today_rating_unfold. f_equal.
  unfold prune at 2. rewrite upsert_filter.
  2:{ intros e ->. exact Htoday. }
  rewrite sort_by_date_filter. now apply prune_prune.
Qed.

Lemma add_today_rating_after_prune_witness :
  add_today_rating noon noon noon (prune (cutoff_of noon) stale) (Some 1510) =
  add_today_rating noon noon noon stale (Some 1510).
Proof.
  apply (add_today_rating_after_prune noon noon noon (cutoff_of noon) stale 1510);
    reflexivity.
Defined.

End StoreBehaviour.

(* ================================================================== *)
(** * More facts about the stages and the run *)
(* ================================================================== *)

Module RunFacts.
Import Clock History Json Script Parts.
Import ClockFacts HistoryFacts ScriptFacts MergeFacts.
Local Open Scope string_scope.

Lemma last_any_default {A : Type} (l : list A) (d1 d2 : A) :
  l <> [] -> last l d1 = last l d2.
Proof.
  induction l as [|x l IH]; [congruence|]. intros _.
  destruct l as [|y l]; [reflexivity|].
  cbn [last] in *. apply IH. discriminate.
Qed.

(** [cleanup_old_data], branch by branch, as one equation. *)
Lemma cleanup_old_data_exact (w : world) :
  cleanup_old_data w =
  (inr (cleaned_history w),
   mkWorld (option_map (fun _ => cleaned_history w) (history_file w))
           (graph_file w) (readme_file w)
           (stdout w ++ cleanup_lines w)%list
           (network w) (clock w) (merge_tick w)).
Proof.
  destruct w as [hf gf rf out net clk tk].
  unfold cleanup_old_data, cleanup_lines, cleaned_history, merge_tick. run.
  destruct hf as [h|]; run.
  - destruct (Nat.eqb_spec (List.length (prune (cutoff_of (clk tk)) h))
                           (List.length h)) as [E|E]; cbn [negb option_map]; run.
    + apply filter_length_eq in E.
      change (prune (cutoff_of (clk tk)) h = h) in E. rewrite E.
      now rewrite app_nil_r.
    + reflexivity.
  - cbn [prune filter List.length Nat.eqb option_map]. now rewrite app_nil_r.
Qed.

(** A fetch that returns a rating has printed nothing. *)
Lemma fetch_current_rating_quiet (w : world) (v : json) :
  fst (fetch_current_rating w) = inr (Some v) ->
  fetch_current_rating w = (inr (Some v), w).
Proof.
  destruct w as [hf gf rf out net clk tk].
  unfold fetch_current_rating. run.
  destruct net as [text|data]; run; [discriminate|].
  destruct (extract_rating data) as [e|[v'|]]; run; try discriminate.
  destruct v'; run; intros H; inversion H; reflexivity.
Qed.

(** A history with an unreadable date makes [create_svg_graph] raise, and
    nothing is written. *)
Lemma create_svg_graph_raises lib (h : list entry) (w : world) :
  ~ Forall (parses lib) h ->
  exists s, create_svg_graph lib h w = (inl (ValueError s), w).
Proof.
  intros Hp. unfold create_svg_graph.
  destruct h as [|e h]; [exfalso; apply Hp; constructor|].
  cbn [List.length Nat.ltb Nat.leb]. unfold bind.
  destruct (parse_dates_fail lib _ w Hp) as (s & ->). now exists s.
Qed.

(** A run of [main] that fetched the rating [r], up to the moment the
    merged history has been saved: what remains is to draw the chart. *)
Lemma main_to_chart lib (w : world) (r : Z) :
  fst (fetch_current_rating w) = inr (Some (JNum r)) ->
  main lib w =
  bind (create_svg_graph lib (merged_history w r))
       (fun drawn : bool =>
         if drawn then
           bind (update_readme r (merged_history w r)) (fun _ =>
           bind (print ("Graph created with " ++
                        PyStr.str (Z.of_nat (List.length (merged_history w r))) ++
                        " data points!")) (fun _ =>
           bind (print ("Files updated: " ++ Report.GRAPH_FILE ++
                        ", rating_history.json, README.md")) (fun _ =>
           if (1 <? List.length (merged_history w r))%nat then
             print ("Stats: High " ++
                    PyStr.str (Chart.py_max (map rating (merged_history w r))) ++
                    ", Low " ++
                    PyStr.str (Chart.py_min (map rating (merged_history w r))) ++
                    ", Change " ++
                    str_signed (r - rating (hd (mkEntry EmptyString 0 EmptyString)
                                               (merged_history w r))))
           else print "Run this script daily to build up your rating history!")))
         else print "Could not create graph")
    (mkWorld (Some (merged_history w r)) (graph_file w) (readme_file w)
             (((((stdout w
                  ++ [("Fetching rating data for " ++ Chart.CHESS_USERNAME ++ "...")%string])
                 ++ [("Current rating: " ++ PyStr.str r)%string])
                ++ cleanup_lines w)
               ++ [("Existing data points: " ++
                   PyStr.str (Z.of_nat (List.length (cleaned_history w))))%string])
              ++ [("Total data points: " ++
                  PyStr.str (Z.of_nat (List.length (merged_history w r))))%string])%list
             (network w) (clock w)
             (S (S (S (merge_tick w))))).
Proof.
  intros Hf. destruct w as [hf gf rf out net clk tk].
  unfold main. run.
  match goal with
  | |- context [fetch_current_rating ?W] =>
      pose proof (fetch_current_rating_value
                    (mkWorld hf gf rf out net clk tk) W eq_refl) as Hv;
      rewrite Hf in Hv; symmetry in Hv;
      rewrite (fetch_current_rating_quiet W _ Hv)
  end.
  run. rewrite cleanup_old_data_exact. run.
  unfold add_today_rating_now. run.
  cbv beta iota zeta delta
    [merged_history merge_tick cleaned_history cleanup_lines stored_history
     history_file graph_file readme_file stdout network clock ticks].
  reflexivity.
Qed.

Lemma cleanup_lines_nil (w : world) :
  cleaned_history w = stored_history w -> cleanup_lines w = [].
Proof. intros E. unfold cleanup_lines. now rewrite E, Nat.eqb_refl. Qed.

(** Merging into the empty history gives the single entry for today. *)
Lemma merge_into_empty t1 t2 t3 (r : Z) :
  clock_sane t1 t3 ->
  add_today_rating t1 t2 t3 [] (Some r) = [fresh_entry t1 t2 r].
Proof.
  intros Hc. rewrite add_today_rating_unfold.
  cbn [upsert update_today app sort_by_date fold_right insert_by_date].
  rewrite prune_all; [reflexivity|].
  constructor; [|constructor]. now apply cutoff_le_today.
Qed.

End RunFacts.

(* ================================================================== *)
(** * Further behaviour of the stages and of the run *)
(* ================================================================== *)

Module RunBehaviour.
Import Clock History Json Script Samples Scenarios Parts.
Import ClockFacts HistoryFacts ScriptFacts MergeFacts RunFacts.
Local Open Scope string_scope.

(** ** [cleanup_old_data] *)

(** X7.  [cleanup_old_data] returns the stored history without the
    entries older than the cut-off, whichever branch it takes.  If a
    history file existed, it holds exactly the returned list afterwards;
    if none existed, none is created.  The chart and the README are not
    touched.  It prints one line, with the number of entries removed, when
    it removed some, and nothing otherwise. *)
Theorem cleanup_old_data_effect (w : world) :
  exists w',
    cleanup_old_data w = (inr (cleaned_history w), w') /\
    history_file w' = option_map (fun _ => cleaned_history w) (history_file w) /\
    graph_file w' = graph_file w /\ readme_file w' = readme_file w /\
    (cleaned_history w = stored_history w -> stdout w' = stdout w) /\
    (cleaned_history w <> stored_history w ->
     (List.length (cleaned_history w) < List.length (stored_history w))%nat /\
     stdout w' =
       (stdout w ++
        [("Cleaned up " ++
          PyStr.str (Z.of_nat (List.length (stored_history w)
                               - List.length (cleaned_history w))) ++
          " old entries")%string])%list).
Proof.
  eexists. split; [apply cleanup_old_data_exact|].
  cbn [history_file graph_file readme_file stdout].
  repeat split.
  - intros E. unfold cleanup_lines. rewrite E, Nat.eqb_refl. apply app_nil_r.
  - pose proof (prune_length (cutoff_of (clock w (ticks w))) (stored_history w)) as Hle.
    fold (cleaned_history w) in Hle.
    destruct (Nat.eq_dec (List.length (cleaned_history w))
                         (List.length (stored_history w))) as [E|E]; [|lia].
    apply filter_length_eq in E. contradiction.
  - unfold cleanup_lines.
    destruct (Nat.eqb_spec (List.length (cleaned_history w))
                           (List.length (stored_history w))) as [E|E];
      [|reflexivity].
    apply filter_length_eq in E. contradiction.
Qed.

Lemma cleanup_old_data_effect_witness :
  exists w',
    cleanup_old_data overdue = (inr two_days, w') /\
    history_file w' = Some two_days /\
    stdout w' = ["Cleaned up 1 old entries"].
Proof.
  destruct (cleanup_old_data_effect overdue)
    as (w' & Hrun & Hfile & _ & _ & _ & Hout).
  exists w'. split; [exact Hrun|]. split; [exact Hfile|].
  apply Hout. vm_compute. discriminate.
Defined.

(** X8.  Cleaning up twice is cleaning up once: a second
    [cleanup_old_data] at the same cut-off returns the same history,
    writes no file and prints nothing. *)
Theorem cleanup_old_data_twice (w w1 : world) (h1 : list entry) :
  cleanup_old_data w = (inr h1, w1) ->
  cutoff_of (clock w1 (ticks w1)) = cutoff_of (clock w (ticks w)) ->
  exists w2,
    cleanup_old_data w1 = (inr h1, w2) /\
    files w2 = files w1 /\ stdout w2 = stdout w1.
Proof.
  intros Hrun Hcut. rewrite cleanup_old_data_exact in Hrun.
  injection Hrun as <- <-.
  rewrite cleanup_old_data_exact.
  assert (E : cleaned_history
                (mkWorld (option_map (fun _ => cleaned_history w) (history_file w))
                   (graph_file w) (readme_file w)
                   (stdout w ++ cleanup_lines w)%list (network w) (clock w)
                   (merge_tick w))
              = cleaned_history w).
  { unfold cleaned_history at 1. rewrite Hcut.
    unfold stored_history at 1. cbn [history_file].
    destruct (history_file w) as [h|] eqn:Ef; cbn [option_map].
    - unfold cleaned_history. apply prune_prune, PyStrFacts.le_refl.
    - unfold cleaned_history, stored_history. rewrite Ef. reflexivity. }
  rewrite E. eexists. split; [reflexivity|].
  unfold files. cbn [history_file graph_file readme_file stdout]. split.
  - destruct (history_file w); reflexivity.
  - match goal with
    | |- (_ ++ cleanup_lines ?W)%list = _ =>
        rewrite (cleanup_lines_nil W); [apply app_nil_r|]
    end.
    rewrite E. unfold stored_history at 1. cbn [history_file].
    destruct (history_file w) as [h|] eqn:Ef; cbn [option_map]; [reflexivity|].
    unfold cleaned_history, stored_history. now rewrite Ef.
Qed.

Lemma cleanup_old_data_twice_witness :
  exists w2,
    cleanup_old_data (snd (cleanup_old_data overdue)) = (inr two_days, w2) /\
    files w2 = files (snd (cleanup_old_data overdue)) /\
    stdout w2 = stdout (snd (cleanup_old_data overdue)).
Proof.
  apply (cleanup_old_data_twice overdue); reflexivity.
Defined.

(** ** [fetch_current_rating] *)

(** X9.  When the decoded body is an object whose ['chess_rapid'] object
    has a ['last'] object with a ['rating'] that is not [null], the
    fetcher returns that rating, prints nothing and changes nothing. *)
Theorem fetch_current_rating_success
    (w : world) (fields rapid last : list (string * json)) (v : json) :
  network w = NetData (JObj fields) ->
  lookup "chess_rapid" fields = Some (JObj rapid) ->
  lookup "last" rapid = Some (JObj last) ->
  lookup "rating" last = Some v ->
  v <> JNull ->
  fetch_current_rating w = (inr (Some v), w).
Proof.
  destruct w as [hf gf rf out net clk tk]. cbn [network].
  intros -> H1 H2 H3 Hv.
  unfold fetch_current_rating. run.
  unfold extract_rating, py_in, py_getitem, try_bind. rewrite H1, H2, H3.
  destruct v; try reflexivity. congruence.
Qed.

Lemma fetch_current_rating_success_witness :
  fetch_current_rating online = (inr (Some (JNum 1510)), online).
Proof.
  refine (fetch_current_rating_success online _ _ _ (JNum 1510) eq_refl _ _ _ _);
    try reflexivity.
  discriminate.
Defined.

(** X10.  The ways to [None], and which of them print.  A failed request
    prints the error.  A body without ['chess_rapid'], or whose
    ['chess_rapid'] has no ['last'], is skipped silently by the [if].  A
    ['last'] without ['rating'] is not guarded: the [KeyError] is caught
    and printed.  A body that is a number is not a container: the
    [TypeError] is caught and its text printed.  A [null] rating is returned as
    [None] without a word. *)
Theorem fetch_current_rating_failures (w : world) :
  (forall text, network w = NetFailure text ->
     fetch_current_rating w =
     (inr None, snd (print ("Error fetching rating: " ++ text) w))) /\
  (forall fields, network w = NetData (JObj fields) ->
     lookup "chess_rapid" fields = None ->
     fetch_current_rating w = (inr None, w)) /\
  (forall fields rapid, network w = NetData (JObj fields) ->
     lookup "chess_rapid" fields = Some (JObj rapid) ->
     lookup "last" rapid = None ->
     fetch_current_rating w = (inr None, w)) /\
  (forall fields rapid last, network w = NetData (JObj fields) ->
     lookup "chess_rapid" fields = Some (JObj rapid) ->
     lookup "last" rapid = Some (JObj last) ->
     lookup "rating" last = None ->
     fetch_current_rating w =
     (inr None, snd (print "Error fetching rating: 'rating'" w))) /\
  (forall n, network w = NetData (JNum n) ->
     exists text,
       fetch_current_rating w =
       (inr None, snd (print ("Error fetching rating: " ++ text) w))) /\
  (forall fields rapid last, network w = NetData (JObj fields) ->
     lookup "chess_rapid" fields = Some (JObj rapid) ->
     lookup "last" rapid = Some (JObj last) ->
     lookup "rating" last = Some JNull ->
     fetch_current_rating w = (inr None, w)).
Proof.
  destruct w as [hf gf rf out net clk tk]. cbn [network].
  unfold fetch_current_rating. run.
  repeat split.
  - intros text ->. reflexivity.
  - intros fields -> H. unfold extract_rating, py_in, try_bind. now rewrite H.
  - intros fields rapid -> H1 H2.
    unfold extract_rating, py_in, py_getitem, try_bind. now rewrite H1, H2.
  - intros fields rapid last -> H1 H2 H3.
    unfold extract_rating, py_in, py_getitem, try_bind.
    now rewrite H1, H2, H3.
  - intros n ->. now eexists.
  - intros fields rapid last -> H1 H2 H3.
    unfold extract_rating, py_in, py_getitem, try_bind.
    now rewrite H1, H2, H3.
Qed.

Lemma fetch_current_rating_failures_witness :
  fetch_current_rating unrated =
  (inr None, snd (print "Error fetching rating: 'rating'" unrated)).
Proof.
  refine (proj1 (proj2 (proj2 (proj2 (fetch_current_rating_failures unrated))))
            _ _ _ eq_refl _ _ _); reflexivity.
Defined.

(** X11.  The fetcher is safe to call: whatever the network answers it
    does not raise, writes no file, does not read the clock, and prints
    at most one line, which starts with "Error fetching rating: "; when it
    returns a rating it has printed nothing, and it never returns
    [null]. *)
Theorem fetch_current_rating_safe (w : world) :
  exists v w',
    fetch_current_rating w = (inr v, w') /\
    (w' = w \/
     exists text, w' = snd (print ("Error fetching rating: " ++ text) w)) /\
    files w' = files w /\ ticks w' = ticks w /\
    (v <> None -> w' = w) /\
    v <> Some JNull.
Proof.
  destruct w as [hf gf rf out net clk tk].
  unfold fetch_current_rating. run.
  destruct net as [text|data]; run.
  - eexists _, _. split; [reflexivity|]. run.
    split; [right; now eexists|]. repeat split; congruence.
  - destruct (extract_rating data) as [e|[v|]]; run.
    + eexists _, _. split; [reflexivity|]. run.
      split; [right; now eexists|]. repeat split; congruence.
    + destruct v; eexists _, _; (split; [reflexivity|]); run;
        (split; [now left|]); repeat split; congruence.
    + eexists _, _. split; [reflexivity|]. run.
      split; [now left|]. repeat split; congruence.
Qed.

(** ** [main] *)

(** X12.  The first run.  With no history file, a fetched rating [r] and
    a sane clock, [main] creates the history with the single entry for
    today, draws the one-point chart, writes a README that tracks one day,
    and closes with the invitation to run daily. *)
Theorem main_first_run
    (lib : string -> option datetime) (w : world) (r : Z) :
  history_file w = None ->
  fst (fetch_current_rating w) = inr (Some (JNum r)) ->
  clock_sane (clock w (ticks w)) (clock w (S (S (ticks w)))) ->
  exists w' lines,
    main lib w = (inr tt, w') /\
    history_file w' =
      Some [fresh_entry (clock w (ticks w)) (clock w (S (ticks w))) r] /\
    graph_file w' = Some (Chart.svg_content [r]) /\
    readme_file w' =
      Some (Report.readme_content r 1
              (strftime_ymd_hm (clock w (S (S (S (ticks w))))))) /\
    stdout w' =
      (stdout w ++ lines ++
       ["Run this script daily to build up your rating history!"])%list.
Proof.
  intros Hnone Hf Hc. rewrite (main_to_chart lib w r Hf).
  assert (Em : merged_history w r =
               [fresh_entry (clock w (ticks w)) (clock w (S (ticks w))) r]).
  { unfold merged_history, merge_tick, cleaned_history, stored_history.
    rewrite Hnone. cbn [prune filter]. now apply merge_into_empty. }
  rewrite Em. unfold merge_tick. rewrite Hnone.
  destruct w as [hf gf rf out net clk tk]. cbn [history_file] in Hnone. subst hf.
  cbn [clock ticks] in Hc.
  unfold bind at 1. rewrite create_svg_graph_run.
  2:{ discriminate. }
  2:{ constructor; [|constructor]. unfold parses, fresh_entry. cbn [date].
      destruct Hc as (Hv & _).
      rewrite strptime_written by exact Hv. discriminate. }
  unfold update_readme, fresh_entry. run. cbn [map rating last List.length Nat.ltb Nat.leb].
  run.
  eexists _, _. split; [reflexivity|]. run.
  split; [reflexivity|]. split; [reflexivity|]. split; [reflexivity|].
  match goal with
  | |- ((((((((out ++ [?a]) ++ [?b]) ++ ?c) ++ [?d]) ++ [?e]) ++ [?f]) ++ [?g])
        ++ [?h])%list = _ =>
      instantiate (1 := ([a; b] ++ c ++ [d; e; f; g])%list)
  end.
  rewrite <- !app_assoc. reflexivity.
Qed.

Lemma main_first_run_witness :
  exists w' lines,
    main ascii_only first_run = (inr tt, w') /\
    history_file w' = Some [fresh_entry noon noon 1510] /\
    graph_file w' = Some (Chart.svg_content [1510%Z]) /\
    readme_file w' = Some (Report.readme_content 1510 1 "2025-03-01 12:00") /\
    stdout w' =
      (stdout first_run ++ lines ++
       ["Run this script daily to build up your rating history!"])%list.
Proof.
  apply (main_first_run ascii_only first_run 1510).
  - reflexivity.
  - reflexivity.
  - unfold clock_sane, canonical, valid, valid_date. vm_compute.
    intuition discriminate.
Defined.

(** X13.  The run is not atomic.  The merged history is saved before the
    chart is drawn, so when the store (of fewer than 30 entries) holds an
    entry within the window whose date [strptime] cannot read, whatever
    the library reads besides ASCII digits, and today's clock reading is
    a calendar day in a year of four digits, [main] ends with the
    [ValueError] of [create_svg_graph] after having rewritten the history
    file, and leaves the chart and the README as they were. *)
Theorem main_saves_before_drawing
    (lib : string -> option datetime) (w : world) (r : Z) (e : entry) :
  fst (fetch_current_rating w) = inr (Some (JNum r)) ->
  In e (stored_history w) -> ~ parses lib e ->
  (List.length (stored_history w) < 30)%nat ->
  PyStr.le (cutoff_of (clock w (ticks w))) (date e) ->
  PyStr.le (cutoff_of (clock w (S (S (merge_tick w))))) (date e) ->
  canonical (clock w (merge_tick w)) ->
  exists culprit w',
    main lib w = (inl (ValueError culprit), w') /\
    history_file w' = Some (merged_history w r) /\
    In e (merged_history w r) /\
    graph_file w' = graph_file w /\ readme_file w' = readme_file w.
Proof.
  intros Hf He Hnp Hlen Hc0 Hc3 Hv.
  assert (Hin : In e (merged_history w r)).
  { unfold merged_history. rewrite add_today_rating_unfold.
    assert (Hcl : In e (cleaned_history w)) by (apply prune_In; tauto).
    pose proof (prune_length (cutoff_of (clock w (ticks w))) (stored_history w)) as Hpl.
    fold (cleaned_history w) in Hpl.
    rewrite cap_small.
    2:{ etransitivity; [apply merge_bound|]. lia. }
    apply prune_In. split; [|exact Hc3].
    apply sort_by_date_In. apply upsert_keeps; [exact Hcl|].
    intros Ed. apply Hnp. unfold parses. rewrite Ed.
    rewrite strptime_written by exact Hv. discriminate. }
  assert (Hbad : ~ Forall (parses lib) (merged_history w r)).
  { intros Hall. rewrite Forall_forall in Hall. exact (Hnp (Hall e Hin)). }
  rewrite (main_to_chart lib w r Hf). unfold bind.
  match goal with
  | |- context [create_svg_graph lib ?h ?W] =>
      destruct (create_svg_graph_raises lib h W Hbad) as (culprit & ->)
  end.
  exists culprit. eexists. split; [reflexivity|].
  cbn [history_file graph_file readme_file]. repeat split. exact Hin.
Qed.

Lemma main_saves_before_drawing_witness :
  exists culprit w',
    main ascii_only corrupt = (inl (ValueError culprit), w') /\
    history_file w' = Some (merged_history corrupt 1510) /\
    In (mkEntry "yesterday" 1500 "2025-02-28T12:00:00") (merged_history corrupt 1510) /\
    graph_file w' = graph_file corrupt /\ readme_file w' = readme_file corrupt.
Proof.
  apply (main_saves_before_drawing ascii_only corrupt 1510
           (mkEntry "yesterday" 1500 "2025-02-28T12:00:00")).
  - reflexivity.
  - cbn. tauto.
  - unfold parses. vm_compute. congruence.
  - cbn. lia.
  - reflexivity.
  - reflexivity.
  - unfold canonical, valid, valid_date. vm_compute. intuition discriminate.
Defined.

(** The dates of a history of written dates within the window are days
    not older than the cut-off day. *)
Lemma days_within_window (t : datetime) (h : list entry) (days : list datetime) :
  valid t -> 1001 <= year t ->
  Forall (fun e => PyStr.le (cutoff_of t) (date e)) h ->
  map date h = map strftime_ymd days -> Forall canonical days ->
  Forall (fun d => date_leb (minus_days t 30) d = true) days.
Proof.
  intros Hv Hy Hwin E Hc. rewrite Forall_forall in *. intros d Hd.
  assert (Hin : In (strftime_ymd d) (map date h)).
  { rewrite E. now apply in_map. }
  apply in_map_iff in Hin. destruct Hin as (e & Ee & He).
  specialize (Hwin e He). unfold PyStr.le in Hwin.
  rewrite cutoff_of_eq, Ee, strftime_ymd_leb in Hwin;
    [exact Hwin| |now apply Hc].
  apply minus_days_canonical; [exact Hv|exact Hy|lia].
Qed.

(** X14.  A successful run keeps the store in order.  With a fetched
    rating, a store whose dates are all written in the form in which the
    script writes them, and a sane clock, [main] ends normally having
    saved exactly the merge of the pruned store with today's rating.  The
    saved history again holds written dates only, which the next run can
    read, whatever the library reads besides ASCII digits; it has at most
    30 entries; and its dates are the renderings of days in nondecreasing
    order of the calendar, none of them older than the cut-off day. *)
Theorem main_keeps_store_in_order
    (lib : string -> option datetime) (w : world) (r : Z) :
  fst (fetch_current_rating w) = inr (Some (JNum r)) ->
  Forall written (stored_history w) ->
  clock_sane (clock w (merge_tick w)) (clock w (S (S (merge_tick w)))) ->
  exists w' days,
    main lib w = (inr tt, w') /\
    history_file w' = Some (merged_history w r) /\
    stored_history w' = merged_history w r /\
    graph_file w' = Some (Chart.svg_content (map rating (merged_history w r))) /\
    sorted (stored_history w') /\
    (List.length (stored_history w') <= 30)%nat /\
    Forall (fun e => PyStr.le (cutoff_of (clock w (S (S (merge_tick w))))) (date e))
           (stored_history w') /\
    Forall written (stored_history w') /\
    Forall (parses lib) (stored_history w') /\
    map date (stored_history w') = map strftime_ymd days /\
    Forall canonical days /\ chronological days /\
    Forall (fun d =>
              date_leb (minus_days (clock w (S (S (merge_tick w)))) 30) d = true)
           days.
Proof.
  intros Hf Hp Hc.
  assert (Hne : merged_history w r <> []).
  { unfold merged_history. now apply add_today_rating_nonempty. }
  assert (Hwm : Forall written (merged_history w r)).
  { unfold merged_history. apply add_today_rating_written.
    - destruct Hc as (Hv & _). exact Hv.
    - now apply prune_written. }
  assert (Hpm : Forall (parses lib) (merged_history w r)).
  { eapply Forall_impl; [|exact Hwm]. intros x. apply written_parses. }
  assert (Hprops :
    sorted (merged_history w r) /\
    (List.length (merged_history w r) <= 30)%nat /\
    Forall (fun e => PyStr.le (cutoff_of (clock w (S (S (merge_tick w))))) (date e))
           (merged_history w r)).
  { unfold merged_history. rewrite add_today_rating_unfold. repeat split.
    - apply cap_sorted, prune_sorted, sort_by_date_sorted.
    - apply cap_length.
    - rewrite Forall_forall. intros x Hx. apply cap_In, prune_In in Hx. tauto. }
  destruct Hprops as (H1 & H2 & H3).
  destruct (sorted_written_chronological _ H1 Hwm) as (days & Hd1 & Hd2 & Hd3).
  assert (Hd4 : Forall (fun d =>
              date_leb (minus_days (clock w (S (S (merge_tick w)))) 30) d = true)
           days).
  { destruct Hc as (_ & Hv3 & Hy3 & _).
    exact (days_within_window _ _ _ Hv3 Hy3 H3 Hd1 Hd2). }
  rewrite (main_to_chart lib w r Hf).
  remember (merged_history w r) as merged eqn:Em.
  remember (merge_tick w) as tick eqn:Et.
  destruct w as [hf gf rf out net clk tk].
  unfold bind at 1. rewrite (create_svg_graph_run lib merged _ Hne Hpm).
  unfold update_readme.
  destruct merged as [|first rest]; [congruence|]. run.
  destruct (1 <? List.length (first :: rest))%nat; run;
    (eexists; exists days; split; [reflexivity|]);
    unfold stored_history; cbn [history_file graph_file];
    (split; [reflexivity|]); (split; [reflexivity|]); (split; [reflexivity|]);
    repeat split; assumption.
Qed.

Lemma main_keeps_store_in_order_witness :
  exists w' days,
    main ascii_only online = (inr tt, w') /\
    history_file w' = Some (merged_history online 1510) /\
    stored_history w' = merged_history online 1510 /\
    graph_file w' = Some (Chart.svg_content (map rating (merged_history online 1510))) /\
    sorted (stored_history w') /\
    (List.length (stored_history w') <= 30)%nat /\
    Forall (fun e => PyStr.le (cutoff_of (clock online (S (S (merge_tick online))))) (date e))
           (stored_history w') /\
    Forall written (stored_history w') /\
    Forall (parses ascii_only) (stored_history w') /\
    map date (stored_history w') = map strftime_ymd days /\
    Forall canonical days /\ chronological days /\
    Forall (fun d =>
              date_leb (minus_days (clock online (S (S (merge_tick online)))) 30) d
              = true)
           days.
Proof.
  apply (main_keeps_store_in_order ascii_only online 1510).
  - reflexivity.
  - constructor; [|constructor; [|constructor]].
    + exists (mkDatetime 2025 2 27 0 0 0 0). split; [|reflexivity].
      unfold canonical, valid, valid_date. vm_compute. intuition discriminate.
    + exists (mkDatetime 2025 2 28 0 0 0 0). split; [|reflexivity].
      unfold canonical, valid, valid_date. vm_compute. intuition discriminate.
  - unfold clock_sane, canonical, valid, valid_date. vm_compute.
    intuition discriminate.
Defined.

End RunBehaviour.

(* ================================================================== *)
(** * Further behaviour of the chart *)
(* ================================================================== *)

Module ChartBehaviour.
Import History Samples Parts ChartFacts ReportFacts.

Lemma contains_front (s a b : string) :
  PyStr.contains s a -> PyStr.contains s (a ++ b)%string.
Proof.
  intros (before & after & ->). exists before, (after ++ b)%string.
  now rewrite !append_assoc.
Qed.

Lemma stat_text_body (y : Z) (fill size : string) (bold : bool) (body : string) :
  PyStr.contains (body ++ "</text>")%string (Chart.stat_text y fill size bold body).
Proof.
  unfold Chart.stat_text. do 3 apply contains_skip.
  replace (body ++ "</text>" ++ PyStr.nl)%string
    with ((body ++ "</text>") ++ PyStr.nl)%string by apply append_assoc.
  apply contains_here.
Qed.

Lemma x_divisor_pos (ratings : list Z) :
  (2 <= List.length ratings)%nat -> 1 <= Chart.x_divisor ratings.
Proof. unfold Chart.x_divisor. lia. Qed.

Lemma point_x_bounds (ratings : list Z) (i : nat) :
  (2 <= List.length ratings)%nat -> (i < List.length ratings)%nat ->
  Chart.margin <= Chart.point_x ratings i <= Chart.width - Chart.margin.
Proof.
  intros Hn Hi. pose proof (x_divisor_pos ratings Hn) as Hd.
  unfold Chart.point_x, Chart.width, Chart.margin.
  assert (Hi' : Z.of_nat i <= Chart.x_divisor ratings) by (unfold Chart.x_divisor; lia).
  set (d := Chart.x_divisor ratings) in *.
  assert (0 <= Z.of_nat i * (1000 - 2 * 60) / d) by (apply Z.div_pos; lia).
  assert (Z.of_nat i * (1000 - 2 * 60) / d <= 880).
  { apply Z.div_le_upper_bound; nia. }
  lia.
Qed.

Lemma point_x_le (ratings : list Z) (i j : nat) :
  (2 <= List.length ratings)%nat -> (i <= j)%nat ->
  Chart.point_x ratings i <= Chart.point_x ratings j.
Proof.
  intros Hn Hij. pose proof (x_divisor_pos ratings Hn) as Hd.
  unfold Chart.point_x. apply Z.add_le_mono_l.
  apply Z.div_le_mono; [lia|]. unfold Chart.width, Chart.margin. nia.
Qed.

Lemma nondecreasing_on_seq (g : nat -> Z) (n : nat) :
  (forall i j, (i <= j)%nat -> g i <= g j) ->
  forall s, StronglySorted Z.le (map g (seq s n)).
Proof.
  intros Hg. induction n as [|n IH]; intros s; cbn [seq map].
  - constructor.
  - constructor; [apply IH|].
    rewrite Forall_forall. intros y Hy.
    apply in_map_iff in Hy. destruct Hy as (j & <- & Hj).
    apply in_seq in Hj. apply Hg. lia.
Qed.

(** X15.  The curve spans the chart: for a history of two or more entries,
    of any length, the x-coordinates start at the left margin (60), end at
    the right margin (940), stay between the two and never decrease. *)
Theorem chart_x_span (history : list entry) :
  (2 <= List.length history)%nat ->
  let ratings := map rating history in
  hd 0 (Chart.xs ratings) = Chart.margin /\
  last (Chart.xs ratings) 0 = Chart.width - Chart.margin /\
  Forall (fun x => Chart.margin <= x <= Chart.width - Chart.margin) (Chart.xs ratings) /\
  StronglySorted Z.le (Chart.xs ratings) /\
  Chart.margin = 60 /\ Chart.width - Chart.margin = 940.
Proof.
  intros Hlen. cbv zeta.
  assert (Hn : (2 <= List.length (map rating history))%nat) by (now rewrite length_map).
  set (ratings := map rating history) in *. clearbody ratings. clear Hlen.
  pose proof (x_divisor_pos ratings Hn) as Hd.
  rewrite xs_seq.
  destruct (List.length ratings) as [|[|n]] eqn:En; [lia|lia|].
  split; [|split; [|split; [|split]]].
  - cbn [seq map hd]. unfold Chart.point_x. cbn [Z.of_nat Z.mul].
    rewrite Z.div_0_l by lia. lia.
  - rewrite seq_S, map_app. cbn [map]. rewrite last_last.
    unfold Chart.point_x.
    replace (Z.of_nat (0 + S n)) with (Chart.x_divisor ratings)
      by (unfold Chart.x_divisor; lia).
    rewrite Z.mul_comm, Z.div_mul by lia. reflexivity.
  - rewrite Forall_forall. intros x Hx. apply in_map_iff in Hx.
    destruct Hx as (i & <- & Hi). apply in_seq in Hi.
    apply point_x_bounds; lia.
  - apply nondecreasing_on_seq. intros i j Hij. apply point_x_le; lia.
  - split; reflexivity.
Qed.

Lemma chart_x_span_witness :
  hd 0 (Chart.xs (map rating two_days)) = 60 /\
  last (Chart.xs (map rating two_days)) 0 = 940.
Proof.
  destruct (chart_x_span two_days) as (H1 & H2 & _).
  - cbn. lia.
  - split; [exact H1|exact H2].
Defined.

(** X16.  Up is better: a higher rating is never drawn lower (the
    y-coordinate does not grow with the rating), the highest rating of a
    history is drawn in the upper half of the chart and the lowest in the
    lower half. *)
Theorem chart_y_antitone (history : list entry) (r1 r2 : Z) :
  history <> [] ->
  let ratings := map rating history in
  (r1 <= r2 -> Chart.point_y ratings r2 <= Chart.point_y ratings r1) /\
  Chart.point_y ratings (Chart.py_max ratings) <= 250 /\
  250 <= Chart.point_y ratings (Chart.py_min ratings).
Proof.
  intros Hne. cbv zeta.
  assert (Hr : map rating history <> []) by (destruct history; [congruence|discriminate]).
  set (ratings := map rating history) in *. clearbody ratings.
  pose proof (rating_range_ge_100 ratings Hr) as Hrange.
  unfold Chart.point_y, Chart.height, Chart.margin.
  split; [|split].
  - intros Hle. apply Z.add_le_mono_l. apply Z.div_le_mono; nia.
  - replace (Chart.max_rating ratings - Chart.py_max ratings) with 50
      by (unfold Chart.max_rating; lia).
    assert (50 * (500 - 2 * 60) / Chart.rating_range ratings <= 190).
    { apply Z.div_le_upper_bound; lia. }
    lia.
  - replace (Chart.max_rating ratings - Chart.py_min ratings)
      with (Chart.rating_range ratings - 50)
      by (unfold Chart.rating_range, Chart.min_rating; lia).
    assert (190 <= (Chart.rating_range ratings - 50) * (500 - 2 * 60)
                   / Chart.rating_range ratings).
    { apply Z.div_le_lower_bound; lia. }
    lia.
Qed.

Lemma chart_y_antitone_witness :
  Chart.point_y (map rating two_days) 1500 <= Chart.point_y (map rating two_days) 1490.
Proof.
  apply (proj1 (chart_y_antitone two_days 1490 1500 ltac:(discriminate))). lia.
Defined.

(** X17.  A one-entry history is drawn as a single dot in the middle of
    the chart, at (500, 250), with the rating written above it, whatever
    the rating is. *)
Theorem chart_single_entry (r : Z) :
  Chart.point_y [r] r = 250 /\
  Chart.curve [r] =
  ("  <circle " ++ Chart.attrs [("cx", "500"); ("cy", "250"); ("r", "6");
                                ("fill", "#00ff88")] ++ "/>" ++ PyStr.nl ++
   "  <text " ++ Chart.attrs [("x", "500"); ("y", "235");
                              ("text-anchor", "middle"); ("fill", "#00ff88");
                              ("font-family", "Arial"); ("font-size", "14");
                              ("font-weight", "bold")] ++ ">" ++
   PyStr.str r ++ "</text>" ++ PyStr.nl)%string.
Proof.
  assert (E : Chart.point_y [r] r = 250).
  { unfold Chart.point_y, Chart.rating_range, Chart.max_rating, Chart.min_rating,
      Chart.py_max, Chart.py_min, Chart.height, Chart.margin. cbn [fold_left].
    replace (r + 50 - r) with 50 by lia.
    replace (r + 50 - (r - 50)) with 100 by lia. reflexivity. }
  split; [exact E|].
  unfold Chart.curve. cbn [List.length Nat.ltb Nat.leb hd]. rewrite E. reflexivity.
Qed.


(** X19.  For every non-empty history the chart text states how many
    days are tracked and shows the rating of the last entry as the
    current one. *)
Theorem chart_text_summary (history : list entry) :
  history <> [] ->
  let ratings := map rating history in
  PyStr.contains
    ("    Last 30 Days (" ++ PyStr.str (Z.of_nat (List.length history))
     ++ " days tracked)")%string
    (Chart.svg_content ratings) /\
  (forall d,
     PyStr.contains
       ("Current: " ++ PyStr.str (rating (last history d)) ++ "</text>")%string
       (Chart.svg_content ratings)).
Proof.
  intros Hne. cbv zeta. unfold Chart.svg_content. split.
  - apply contains_front. rewrite length_map. unfold Chart.svg_header.
    do 21 apply contains_skip. apply contains_here3.
  - intros d. do 3 apply contains_skip. apply contains_front.
    assert (E : last (map rating history) 0 = rating (last history d)).
    { clear - Hne. induction history as [|x l IH]; [congruence|].
      destruct l as [|y l]; [reflexivity|].
      cbn [map last] in *. apply IH. discriminate. }
    unfold Chart.stats. rewrite E.
    replace ("Current: " ++ PyStr.str (rating (last history d)) ++ "</text>")%string
      with (("Current: " ++ PyStr.str (rating (last history d))) ++ "</text>")%string
      by apply append_assoc.
    destruct (1 <? List.length (map rating history))%nat.
    + apply contains_front. apply stat_text_body.
    + apply stat_text_body.
Qed.

Lemma chart_text_summary_witness :
  PyStr.contains "    Last 30 Days (2 days tracked)"%string
    (Chart.svg_content (map rating two_days)) /\
  PyStr.contains "Current: 1500</text>"%string
    (Chart.svg_content (map rating two_days)).
Proof.
  destruct (chart_text_summary two_days ltac:(discriminate)) as (H1 & H2).
  split; [exact H1|]. exact (H2 (mkEntry EmptyString 0 EmptyString)).
Defined.

End ChartBehaviour.

(* ================================================================== *)
(** * Further behaviour of the date strings *)
(* ================================================================== *)

Module DateBehaviour.
Import Clock History Samples Parts ClockFacts.

(** X20.  What the script writes it can read: the date string that
    [add_today_rating] stores for a clock reading that is a calendar day
    in a year of four digits is accepted by the [strptime] call of
    [create_svg_graph], whatever the library reads besides ASCII digits,
    and read as that same calendar day.  (In a year below 1000 this
    fails: see [Checks.strftime_year_999].) *)
Theorem written_date_reads_back
    (lib : string -> option datetime) (t_today t_stamp : datetime) (r : Z) :
  canonical t_today ->
  strptime lib (date (fresh_entry t_today t_stamp r)) =
  Some (mkDatetime (year t_today) (month t_today) (day t_today) 0 0 0 0).
Proof. intros Hv. unfold fresh_entry. cbn [date]. now apply strptime_written. Qed.

Lemma written_date_reads_back_witness :
  strptime ascii_only (date (fresh_entry noon noon 1510)) =
  Some (mkDatetime 2025 3 1 0 0 0 0).
Proof.
  apply (written_date_reads_back ascii_only noon noon 1510).
  unfold canonical, valid, valid_date. vm_compute. intuition discriminate.
Defined.

(** X21.  Why comparing strings works: on the date strings the script
    writes (valid dates with a four-digit year) the string order used by
    the sort and by the pruning is the order of the calendar, and two
    readings get the same string exactly when they fall on the same
    day. *)
Theorem written_dates_order (a b : datetime) :
  canonical a -> canonical b ->
  String.leb (strftime_ymd a) (strftime_ymd b) = date_leb a b /\
  (strftime_ymd a = strftime_ymd b <->
   year a = year b /\ month a = month b /\ day a = day b).
Proof.
  intros Ha Hb. split; [now apply strftime_ymd_leb|].
  split.
  - intros E.
    pose proof (strftime_ymd_compare a b Ha Hb) as Hc.
    rewrite E in Hc.
    assert (R : String.compare (strftime_ymd b) (strftime_ymd b) = Eq).
    { pose proof (PyStrFacts.le_refl (strftime_ymd b)) as L.
      pose proof (String.compare_antisym (strftime_ymd b) (strftime_ymd b)) as S.
      destruct (String.compare (strftime_ymd b) (strftime_ymd b)); try reflexivity;
        discriminate. }
    rewrite R in Hc.
    destruct (Z.compare_spec (year a) (year b));
    destruct (Z.compare_spec (month a) (month b));
    destruct (Z.compare_spec (day a) (day b)); try discriminate; auto.
  - intros (Ey & Em & Ed). unfold strftime_ymd. now rewrite Ey, Em, Ed.
Qed.

Lemma written_dates_order_witness :
  String.leb (strftime_ymd (minus_days noon 30)) (strftime_ymd noon) =
  date_leb (minus_days noon 30) noon.
Proof.
  apply (written_dates_order (minus_days noon 30) noon);
    unfold canonical, valid, valid_date; vm_compute; intuition discriminate.
Defined.

End DateBehaviour.
